(** * Online statistics and windowed anomaly detection (LearnAI-ADPM labs)

    A shallow embedding of the algorithmic core of the two lab notebooks:

    - [lab01.3_AD_Model_Deployment/AD_model_deployment_AKS.ipynb]: the
      scoring script [score.py] ([init], [run]) in its original form and
      in the modified form that reads the window length from the request;
    - [lab01.2_AD_Model_Development/anomaly_detection_model_development.ipynb]:
      [run_avg], [detect_ts_online], [eval] and the trial loop of
      [sample_run].

    Python floats are modelled by exact rationals ([Q], compared with
    [==]); rounding is not modelled.  Python exceptions are values of
    [exn] carried by [result]. *)

From Stdlib Require Import QArith Qminmax Qpower Qfield Lia Lqa.
From stdpp Require Import gmap strings list sorting.

Open Scope Q_scope.

(** ** Exceptions and results *)

Inductive exn : Type :=
  | KeyError (key : string)
  | IndexError
  | ZeroDivisionError
  | ValueError
  | UnboundLocalError.

Inductive result (A : Type) : Type :=
  | Ok (a : A)
  | Raise (e : exn).
Arguments Ok {A} a.
Arguments Raise {A} e.

#[global] Instance result_ret : MRet result := fun A a => Ok a.

#[global] Instance result_bind : MBind result := fun A B k m =>
  match m with
  | Ok a => k a
  | Raise e => Raise e
  end.

(** Python's [d[key]] on a dictionary. *)
Definition getitem (d : gmap string Q) (key : string) : result Q :=
  match d !! key with
  | Some v => Ok v
  | None => Raise (KeyError key)
  end.

(** Python's [a / b] on numbers. *)
Definition pydiv (a b : Q) : result Q :=
  if Qeq_bool b 0 then Raise ZeroDivisionError else Ok (a / b).

(** Sums and arithmetic means ([np.mean]) of a list of numbers. *)
Definition Qsum (l : list Q) : Q := foldr Qplus 0 l.

Definition mean (l : list Q) : Q :=
  Qsum l / inject_Z (Z.of_nat (length l)).

(** ** The scoring script [score.py] *)

Module Score.

(** The two module-level globals of [score.py]. *)
Record globals : Type := Globals {
  running_avg : Q;
  curr_n : Z
}.

(** [init]: [running_avg = 0.0; curr_n = 0]. *)
Definition init : globals := Globals 0 0.

(** The part of [run] after [n_arg] is known: it is the same text in
    both cells.  The counter is incremented before the division, so a
    failing division leaves [running_avg] untouched but not [curr_n]. *)
Definition step (n_arg value : Q) (g : globals) : globals * result Q :=
  let curr_n' := (curr_n g + 1)%Z in
  let n := Qmin (inject_Z curr_n') n_arg in
  match pydiv (value - running_avg g) n with
  | Ok d =>
      let avg := running_avg g + d in
      (Globals avg curr_n', Ok avg)
  | Raise e => (Globals (running_avg g) curr_n', Raise e)
  end.

(** [run] of the first [%%writefile score.py] cell: [n_arg = 5]. *)
Definition run (raw_data : gmap string Q) (g : globals)
  : globals * result Q :=
  match getitem raw_data "value" with
  | Raise e => (g, Raise e)
  | Ok value =>
      let n_arg := 5 in
      step n_arg value g
  end.

(** [run] of the modified cell: [n_arg = json.loads(raw_data)['n']]. *)
Definition run_modified (raw_data : gmap string Q) (g : globals)
  : globals * result Q :=
  match getitem raw_data "value" with
  | Raise e => (g, Raise e)
  | Ok value =>
      match getitem raw_data "n" with
      | Raise e => (g, Raise e)
      | Ok n_arg => step n_arg value g
      end
  end.

(** A client loop: one request per payload, responses collected in
    order (the test cells of the notebook). *)
Fixpoint serve (f : gmap string Q -> globals -> globals * result Q)
    (reqs : list (gmap string Q)) (g : globals)
  : globals * list (result Q) :=
  match reqs with
  | [] => (g, [])
  | r :: reqs' =>
      let '(g', out) := f r g in
      let '(g'', outs) := serve f reqs' g' in
      (g'', out :: outs)
  end.

(** Request payloads [{"value": v}] and [{"value": v, "n": n}]. *)
Definition req_value (v : Q) : gmap string Q := {[ "value" := v ]}.
Definition req_value_n (v n : Q) : gmap string Q :=
  <[ "n" := n ]> {[ "value" := v ]}.

(** [returns r q]: the call answered with a number equal to [q]. *)
Definition returns (r : result Q) (q : Q) : Prop :=
  match r with
  | Ok a => a == q
  | Raise _ => False
  end.

(** [returns_last out q]: the last call of a session answered [q]. *)
Definition returns_last (out : globals * list (result Q)) (q : Q) : Prop :=
  match last out.2 with
  | Some r => returns r q
  | None => False
  end.

(** The scoring contract in the spec's words (sections 4.1 and 6):
    [n] is read from the request when present and is 5 otherwise, then
    [n_eff = min(curr_n+1, n)], [avg := avg + (value - avg)/n_eff],
    [curr_n += 1], and the new [avg] is the answer. *)
Definition spec_score (value : Q) (n : option Q) (g : globals)
  : globals * Q :=
  let n := default 5 n in
  let n_eff := Qmin (inject_Z (curr_n g + 1)) n in
  let avg := running_avg g + (value - running_avg g) / n_eff in
  (Globals avg (curr_n g + 1), avg).

(** The reply of a call that went through: new globals, and the new
    average as the answer. *)
Definition answered (p : globals * Q) : globals * result Q :=
  (p.1, Ok p.2).

End Score.

(** ** The model-development notebook *)

#[global] Instance Q_inhabited : Inhabited Q := populate 0.

Module Develop.

(** A row of the two-column frame [df_smooth] ([timestamp], [value]);
    the oracle's [results['anoms']] frame has the same shape. *)
Record row : Type := Row {
  timestamp : Z;
  value : Q
}.

(** *** Frames as lists *)

(** Python's resolution of one slice bound against a length: negative
    bounds count from the end, and both are clipped to the range. *)
Definition slice_bound (len i : Z) : Z :=
  if (i <? 0)%Z then Z.max 0 (len + i) else Z.min len i.

(** [df.iloc[start:stop, :]]: rows by position, [stop] excluded. *)
Definition iloc {A} (df : list A) (start stop : Z) : list A :=
  let len := Z.of_nat (length df) in
  let a := slice_bound len start in
  let b := slice_bound len stop in
  take (Z.to_nat (b - a)) (drop (Z.to_nat a) df).

(** [s.tail(1).values[0]]: the last entry, [IndexError] when empty. *)
Definition tail1 {A} (s : list A) : result A :=
  match last s with
  | Some x => Ok x
  | None => Raise IndexError
  end.

(** *** Running averages *)

(** The cell of the notebook is an exercise template: both assignments
    store the placeholder [-1], and the loop bound and [com] are the
    globals [rm] (the batch result, of length [len_rm]) and [com]. *)
Definition run_avg_template (len_rm : nat) (com : Q) (ts : list Q)
  : result (list Q) :=
  let rm_o := replicate (length ts) 0 in
  match rm_o !! 0%nat with
  | None => Raise IndexError
  | Some _ =>
      let rm_o := <[0%nat := -1]> rm_o in
      foldl (fun acc r =>
               rm_o ← acc;
               let curr_com := Qmin com (inject_Z (Z.of_nat r)) in
               if decide (r < length rm_o)%nat
               then Ok (<[r := -1]> rm_o)
               else Raise IndexError)
            (Ok rm_o) (seq 1 (len_rm - 1))
  end.

(** One pass of the loop body of [run_avg] at index [r], on the array
    [rm_o] being filled. *)
Definition run_avg_body (ts : list Q) (com : Q) (rm_o : list Q) (r : nat)
  : list Q :=
  let curr_com := Qmin com (inject_Z (Z.of_nat r)) in
  let prev := rm_o !!! (r - 1)%nat in
  <[r := prev + (ts !!! r - prev) / (curr_com + 1)]> rm_o.

(** Modelled from the spec: the two assignments of [run_avg], which the
    notebook leaves to [../solutions/running_avg.py] (not part of the
    sources).  The frame of the function is the notebook's: the array
    [np.zeros_like(ts)], the first entry, then the loop
    [for r in range(1, len(ts))] with [curr_com = float(min(com, r))];
    the signature [run_avg(ts, com)] is that of the call in
    [sample_run].  The assignments follow section 4.1 of the spec:
    [avg := value] first, then
    [avg := avg + (value - avg) / (effective_c + 1)]. *)
Definition run_avg (ts : list Q) (com : Q) : result (list Q) :=
  let rm_o := replicate (length ts) 0 in
  match ts !! 0%nat with
  | None => Raise IndexError
  | Some v0 =>
      let rm_o := <[0%nat := v0]> rm_o in
      Ok (foldl (run_avg_body ts com) rm_o (seq 1 (length ts - 1)))
  end.

(** The recurrence of section 4.1 in the spec's own words, as a
    stream transformer: the previous average and the index are carried
    along.  Compared with [run_avg] below. *)
Fixpoint online_from (c : Q) (r : nat) (avg : Q) (values : list Q)
  : list Q :=
  match values with
  | [] => []
  | v :: values' =>
      let effective_c := Qmin c (inject_Z (Z.of_nat r)) in
      let avg' := avg + (v - avg) / (effective_c + 1) in
      avg' :: online_from c (S r) avg' values'
  end.

Definition online_ewm (c : Q) (values : list Q) : list Q :=
  match values with
  | [] => []
  | v :: values' => v :: online_from c 1 v values'
  end.

(** The weight ratio [1 - alpha] of an exponential window given by its
    center of mass: [alpha = 1 / (1 + com)]. *)
Definition decay (com : Q) : Q := 1 - 1 / (1 + com).

(** The weighted sum [x_t + (1-alpha) x_(t-1) + ... + (1-alpha)^t x_0]
    and the sum of the weights [1 + (1-alpha) + ... + (1-alpha)^t]. *)
Definition ewm_num (com : Q) (x : list Q) (t : nat) : Q :=
  Qsum ((fun i => decay com ^ Z.of_nat i * x !!! (t - i)%nat)
          <$> seq 0 (S t)).

Definition ewm_den (com : Q) (t : nat) : Q :=
  Qsum ((fun i => decay com ^ Z.of_nat i) <$> seq 0 (S t)).

Definition ewm_mean_at (com : Q) (x : list Q) (t : nat) : Q :=
  ewm_num com x t / ewm_den com t.

(** Modelled from the spec: the batch reference
    [df_s['value'].ewm(com=com).mean()], which is the pandas library and
    not code of the repository.  With the defaults of that call
    ([adjust=True]) its entry at [t] is the weighted sum of the values up
    to [t] divided by the sum of the weights. *)
Definition ewm_mean (com : Q) (x : list Q) : list Q :=
  ewm_mean_at com x <$> seq 0 (length x).

(** Modelled from the spec: the same library call with [adjust=False],
    [y_0 = x_0] and [y_t = (1-alpha) y_(t-1) + alpha x_t]. *)
Fixpoint ewm_unadjusted_from (com : Q) (y : Q) (x : list Q) : list Q :=
  match x with
  | [] => []
  | v :: x' =>
      let y' := decay com * y + (1 / (1 + com)) * v in
      y' :: ewm_unadjusted_from com y' x'
  end.

Definition ewm_mean_unadjusted (com : Q) (x : list Q) : list Q :=
  match x with
  | [] => []
  | v :: x' => v :: ewm_unadjusted_from com v x'
  end.

(** *** Windowed detection *)

(** The batch oracle [detect_ts] (pyculiarity) as the notebook uses it:
    on a frame it runs for some time and then either returns its
    [results['anoms']] frame or raises. *)
Definition oracle : Type := list row -> Q * result (list row).

(** The frame handed to the oracle:
    [start_index = max(0, stop - window_size)],
    [df_win = df_smooth.iloc[start_index:stop, :]]. *)
Definition window (df_smooth : list row) (window_size stop : Z)
  : list row :=
  let start_index := Z.max 0 (stop - window_size) in
  iloc df_smooth start_index stop.

(** The verdict on the oracle's findings, the same text in both
    versions of the function:
    [if results['anoms'].shape[0] > 0:
       timestamp = df_win['timestamp'].tail(1).values[0]
       if timestamp == results['anoms'].tail(1)['timestamp'].values[0]:
         is_anomaly = True]. *)
Definition verdict (df_win anoms : list row) : result bool :=
  let is_anomaly := false in
  if (0 <? length anoms)%nat then
    ts ← tail1 (timestamp <$> df_win);
    a ← tail1 (timestamp <$> anoms);
    if (ts =? a)%Z then Ok true else Ok is_anomaly
  else Ok is_anomaly.

(** [detect_ts_online] (first version of the notebook): no handler
    around the oracle, so the initial [run_time = 9999] is never
    returned.  [now] is the reading of [time.time()] just before the
    call, [now + dt] the reading after it. *)
Definition detect_ts_online (detect_ts : oracle) (now : Q)
    (df_smooth : list row) (window_size stop : Z) : result (bool * Q) :=
  let run_time := 9999 in
  let df_win := window df_smooth window_size stop in
  let start_time := now in
  let '(dt, results) := detect_ts df_win in
  anoms ← results;
  let run_time := (now + dt) - start_time in
  is_anomaly ← verdict df_win anoms;
  Ok (is_anomaly, run_time).

(** [eval] (second version): the call and the verdict sit in
    [try: ... except ValueError: pass]; [run_time] starts at [-1] and
    is assigned only after the oracle has returned. *)
Definition eval (detect_ts : oracle) (now : Q)
    (df_smooth : list row) (window_size stop : Z) : result (bool * Q) :=
  let is_anomaly := false in
  let run_time := -1 in
  let df_win := window df_smooth window_size stop in
  let start_time := now in
  let '(dt, results) := detect_ts df_win in
  match results with
  | Raise ValueError => Ok (is_anomaly, run_time)
  | Raise e => Raise e
  | Ok anoms =>
      let run_time := (now + dt) - start_time in
      match verdict df_win anoms with
      | Raise ValueError => Ok (is_anomaly, run_time)
      | Raise e => Raise e
      | Ok is_anomaly => Ok (is_anomaly, run_time)
      end
  end.

(** Sample data: a smoothed frame of four hourly rows, and oracles
    that flag the rows bearing one timestamp, or fail after running for
    some time. *)
Definition frame4 : list row :=
  [Row 10 1; Row 20 2; Row 30 3; Row 40 4].

Definition flag_timestamp (t : Z) : oracle :=
  fun df_win => (0, Ok (filter (fun r => timestamp r = t) df_win)).

Definition failing_after (dt : Q) (e : exn) : oracle :=
  fun _ => (dt, Raise e).

(** The raw rows behind [frame4] ([datetime], sensor value): with
    [com = 0] smoothing returns them unchanged. *)
Definition raw4 : list (Z * Q) :=
  [(10%Z, 1); (20%Z, 2); (30%Z, 3); (40%Z, 4)].

(** A stand-in for [np.random.shuffle]. *)
Definition reversing : nat -> list Z -> list Z := fun _ l => reverse l.

(** *** The evaluation harness [sample_run] *)

(** What the anomaly-biased branch of a trial ends with: a timestamp
    for [random_timestamps[i]], or the early [return 0.0, 9999.0]. *)
Inductive pick : Type :=
  | Picked (ts : Z)
  | GiveUp.

(** What a trial contributes: one entry for each of [y_true], [y_pred]
    and [run_times], or the early return. *)
Inductive trial : Type :=
  | Sample (y_true y_pred : bool) (run_time : Q)
  | Abandon.

(** The draws of one epoch: the rows [df_s] of the chosen machine
    (their [datetime] and the raw value of the chosen sensor), the
    batch anomalies [anoms_s] of that machine and sensor, the entry of [random_timestamps], and
    whether [np.random.random() < p_anoms]. *)
Record epoch : Type := Epoch {
  df_s : list (Z * Q);
  anoms_s : list Z;
  random_timestamp : Z;
  biased : bool
}.

Section Harness.

Variable detect_ts : oracle.
(** [shuffle k a]: the array after the [k]-th call of
    [np.random.shuffle] in the run. *)
Variable shuffle : nat -> list Z -> list Z.
(** The metric, left open in the notebook
    ([score = <put your solution here>]). *)
Variable score_of : list bool -> list bool -> Q.
(** [timestamps = df['datetime'].unique()[window_size:]]. *)
Variable timestamps : list Z.
Variable window_size : Z.
Variable com : Q.

(** The loop
    [while anoms_timestamps[0] < timestamps[0]:
       if counter > 100: return 0.0, 9999.0
       np.random.shuffle(anoms_timestamps)
       counter += 1].
    [rng] counts the shuffles made so far; [None] is fuel
    exhaustion. *)
Fixpoint resample (fuel : nat) (rng : nat) (counter : Z)
    (anoms_timestamps : list Z) : option (nat * result pick) :=
  match fuel with
  | O => None
  | S fuel' =>
      match anoms_timestamps !! 0%nat, timestamps !! 0%nat with
      | Some a0, Some t0 =>
          if (a0 <? t0)%Z then
            if (100 <? counter)%Z then Some (rng, Ok GiveUp)
            else resample fuel' (S rng) (counter + 1)
                   (shuffle rng anoms_timestamps)
          else Some (rng, Ok (Picked a0))
      | _, _ => Some (rng, Raise IndexError)
      end
  end.

(** The branch [if np.random.random() < p_anoms: ...]. *)
Definition pick_anomaly (fuel rng : nat) (e : epoch)
  : option (nat * result pick) :=
  let anoms_timestamps := shuffle rng (anoms_s e) in
  let counter := 0%Z in
  resample fuel (S rng) counter anoms_timestamps.

(** [test_case.index.values[0]] for
    [test_case = df_smooth[df_smooth['timestamp'] == ts]]. *)
Definition test_case_index (df_smooth : list row) (ts : Z) : result Z :=
  match list_find (fun r => timestamp r = ts) df_smooth with
  | Some (i, _) => Ok (Z.of_nat i)
  | None => Raise IndexError
  end.

(** The rest of the loop body, from [# select the test case]. *)
Definition run_test_case (now : Q) (e : epoch) (df_smooth : list row)
    (ts : Z) : result trial :=
  test_case_index ← test_case_index df_smooth ts;
  let y_true_i := bool_decide (ts ∈ anoms_s e) in
  '(y_pred_i, run_times_i) ←
    detect_ts_online detect_ts now df_smooth window_size test_case_index;
  Ok (Sample y_true_i y_pred_i run_times_i).

(** The body of [for i in range(0, n_epochs)] for one epoch. *)
Definition run_epoch (fuel rng : nat) (now : Q) (e : epoch)
  : option (nat * result trial) :=
  match run_avg ((df_s e).*2) com with
  | Raise x => Some (rng, Raise x)
  | Ok smooth_values =>
      let df_smooth := zip_with Row ((df_s e).*1) smooth_values in
      if biased e then
        match pick_anomaly fuel rng e with
        | None => None
        | Some (rng', Raise x) => Some (rng', Raise x)
        | Some (rng', Ok GiveUp) => Some (rng', Ok Abandon)
        | Some (rng', Ok (Picked ts)) =>
            Some (rng', run_test_case now e df_smooth ts)
        end
      else Some (rng, run_test_case now e df_smooth (random_timestamp e))
  end.

(** The loop over the epochs with its three accumulators; [assigned]
    holds [score] and [run_time] once a pass has assigned them, and
    the final [return score, run_time] reads them. *)
Fixpoint epochs_loop (fuel rng : nat) (now : Q) (es : list epoch)
    (y_true y_pred : list bool) (run_times : list Q)
    (assigned : option (Q * Q)) : option (result (Q * Q)) :=
  match es with
  | [] =>
      match assigned with
      | Some sr => Some (Ok sr)
      | None => Some (Raise UnboundLocalError)
      end
  | e :: es' =>
      match run_epoch fuel rng now e with
      | None => None
      | Some (_, Raise x) => Some (Raise x)
      | Some (_, Ok Abandon) => Some (Ok (0, 9999))
      | Some (rng', Ok (Sample t p rt)) =>
          let y_true := y_true ++ [t] in
          let y_pred := y_pred ++ [p] in
          let run_times := run_times ++ [rt] in
          let score := score_of y_true y_pred in
          let run_time := mean run_times in
          epochs_loop fuel rng' now es' y_true y_pred run_times
            (Some (score, run_time))
      end
  end.

(** [sample_run], on the draws of its [n_epochs = 10] epochs.
    [np.random.choice(timestamps, n_epochs)] raises [ValueError] on
    an empty array.  The clock is read as [now] before each oracle
    call: only differences of readings are used. *)
Definition sample_run (fuel : nat) (now : Q) (es : list epoch)
  : option (result (Q * Q)) :=
  match timestamps with
  | [] => Some (Raise ValueError)
  | _ => epochs_loop fuel 0 now es [] [] [] None
  end.

End Harness.

End Develop.


(** ** Other cells of the notebooks *)

Module Cells.

(** [np.where(col == t)[0]]: the positions of [t] in a column, counted
    from [i]. *)
Fixpoint where_from (i : Z) (col : list Z) (t : Z) : list Z :=
  match col with
  | [] => []
  | x :: col' =>
      if decide (x = t) then i :: where_from (i + 1) col' t
      else where_from (i + 1) col' t
  end.

(** [int(a)] on an array of positions: the entry of an array of size 1,
    [TypeError] for any other size. *)
Inductive conversion : Type :=
  | Converted (i : Z)
  | TypeError.

Definition int_of_array (a : list Z) : conversion :=
  match a with
  | [i] => Converted i
  | _ => TypeError
  end.

(** The cell that keeps the place of the last batch anomaly:
    [last_anomaly = int(np.where(df_smooth['timestamp'] ==
       results['anoms'].tail(1)['timestamp'].values[0])[0])]. *)
Definition last_anomaly (df_smooth anoms : list Develop.row)
  : result conversion :=
  t ← Develop.tail1 (Develop.timestamp <$> anoms);
  Ok (int_of_array (where_from 0 (Develop.timestamp <$> df_smooth) t)).

(** One pass of the loop of [Develop.run_avg_template] at index [r]:
    the function that its fold applies, under a name. *)
Definition template_pass (com : Q) (acc : result (list Q)) (r : nat)
  : result (list Q) :=
  rm_o ← acc;
  let curr_com := Qmin com (inject_Z (Z.of_nat r)) in
  if decide (r < length rm_o)%nat
  then Ok (<[r := -1]> rm_o)
  else Raise IndexError.

(** The place of the [s]-th sensor in the 2 x 2 panel of figures of the
    data-exploration notebook: [c = s%2] (column), [r = int(s/2)] (row),
    for the index [s] that [enumerate] gives. *)
Definition panel (s : nat) : nat * nat :=
  let c := (s mod 2)%nat in
  let r := (s / 2)%nat in
  (r, c).

(** The trials of a run that are carried through, one after the other
    from the state [rng] of the random generator: their samples
    ([y_true], [y_pred], run time) in order and the state of the
    generator after them; [None] when one of them is abandoned, raises
    or runs out of fuel. *)
Fixpoint carried_through (detect_ts : Develop.oracle)
    (shuffle : nat -> list Z -> list Z) (timestamps : list Z)
    (window_size : Z) (com : Q) (fuel rng : nat) (now : Q)
    (es : list Develop.epoch) : option (nat * list (bool * bool * Q)) :=
  match es with
  | [] => Some (rng, [])
  | e :: es' =>
      match Develop.run_epoch detect_ts shuffle timestamps window_size com
              fuel rng now e with
      | Some (rng', Ok (Develop.Sample t p rt)) =>
          match carried_through detect_ts shuffle timestamps window_size com
                  fuel rng' now es' with
          | Some (rng'', samples) => Some (rng'', (t, p, rt) :: samples)
          | None => None
          end
      | _ => None
      end
  end.

End Cells.

(** * Properties *)

(** ** The scoring script *)

Section ScoreFacts.
Import Score.

Lemma of_nat_S_Q (k : nat) :
  inject_Z (Z.of_nat (S k)) == inject_Z (Z.of_nat k) + 1.
Proof. rewrite Nat2Z.inj_succ, <- Z.add_1_r, inject_Z_plus. reflexivity. Qed.

Lemma of_nat_nonneg_Q (k : nat) : 0 <= inject_Z (Z.of_nat k).
Proof.
  change 0 with (inject_Z 0). rewrite <- Zle_Qle. apply Nat2Z.is_nonneg.
Qed.

Lemma pydiv_ok (a b : Q) : ~ b == 0 -> pydiv a b = Ok (a / b).
Proof.
  intros Hb. unfold pydiv. destruct (Qeq_bool b 0) eqn:E; [|done].
  apply Qeq_bool_eq in E. contradiction.
Qed.

Lemma pydiv_zero (a b : Q) : b == 0 -> pydiv a b = Raise ZeroDivisionError.
Proof.
  intros Hb. unfold pydiv. by rewrite (Qeq_eq_bool _ _ Hb).
Qed.

(** One pass through the shared body of [run], when the divisor is
    not zero. *)
Lemma step_ok (n_arg v : Q) (g : globals) :
  ~ Qmin (inject_Z (curr_n g + 1)) n_arg == 0 ->
  step n_arg v g =
    let avg := running_avg g
               + (v - running_avg g) / Qmin (inject_Z (curr_n g + 1)) n_arg in
    (Globals avg (curr_n g + 1), Ok avg).
Proof. intros Hn. unfold step. by rewrite (pydiv_ok _ _ Hn). Qed.

(** While fewer than [n_arg] values have been seen the divisor is the
    count itself, and the running average times the count is the sum
    of the values. *)
Lemma step_sum (n_arg v s : Q) (g : globals) (k : nat) :
  curr_n g = Z.of_nat k ->
  inject_Z (Z.of_nat (S k)) <= n_arg ->
  running_avg g * inject_Z (Z.of_nat k) == s ->
  exists avg,
    step n_arg v g = (Globals avg (Z.of_nat (S k)), Ok avg)
    /\ avg * inject_Z (Z.of_nat (S k)) == s + v.
Proof.
  intros Hk Hn Hs.
  assert (Hk' : (curr_n g + 1)%Z = Z.of_nat (S k)) by lia.
  assert (Hm : Qmin (inject_Z (Z.of_nat (S k))) n_arg
               == inject_Z (Z.of_nat k) + 1).
  { rewrite Q.min_l by done. apply of_nat_S_Q. }
  pose proof (of_nat_nonneg_Q k) as Hpos.
  assert (Hnz : ~ inject_Z (Z.of_nat k) + 1 == 0) by lra.
  rewrite step_ok; rewrite Hk'.
  - cbn zeta. eexists. split; [reflexivity|].
    rewrite Hm, of_nat_S_Q, <- Hs. field. exact Hnz.
  - intros E. apply Hnz. rewrite <- Hm. exact E.
Qed.

Section Session.
(** A handler [f] that, on the request built from [v], runs the
    shared body with a fixed [n_arg]. *)
Variable f : gmap string Q -> globals -> globals * result Q.
Variable mk : Q -> gmap string Q.
Variable n_arg : Q.
Hypothesis f_step : forall v g, f (mk v) g = step n_arg v g.

Lemma serve_sum (vs : list Q) : forall (g : globals) (k : nat) (s : Q),
  vs <> [] ->
  curr_n g = Z.of_nat k ->
  inject_Z (Z.of_nat (k + length vs)) <= n_arg ->
  running_avg g * inject_Z (Z.of_nat k) == s ->
  exists avg,
    last (serve f (mk <$> vs) g).2 = Some (Ok avg)
    /\ avg * inject_Z (Z.of_nat (k + length vs)) == s + Qsum vs.
Proof.
  induction vs as [|v vs IH]; intros g k s Hne Hk Hn Hs; [done|].
  cbn [fmap list_fmap serve length] in *.
  rewrite f_step.
  destruct (step_sum n_arg v s g k Hk) as (avg & Hstep & Havg); [|done|].
  { eapply Qle_trans; [|exact Hn]. rewrite <- Zle_Qle. lia. }
  rewrite Hstep.
  destruct vs as [|v' vs].
  - exists avg. split; [done|]. cbn.
    replace (k + 1)%nat with (S k) by lia. rewrite Havg. ring.
  - set (g' := Globals avg (Z.of_nat (S k))) in *.
    destruct (IH g' (S k) (s + v)) as (avg' & Hlast & Havg');
      [done|done| |done|].
    { by replace (S k + length (v' :: vs))%nat
        with (k + S (length (v' :: vs)))%nat by lia. }
    destruct (serve f (mk <$> v' :: vs) g') as [g'' outs] eqn:E.
    exists avg'. split.
    + cbn in Hlast |- *. destruct outs; [done|]. exact Hlast.
    + replace (k + S (length (v' :: vs)))%nat
        with (S k + length (v' :: vs))%nat by lia.
      rewrite Havg'. cbn [Qsum foldr]. ring.
Qed.

(** From a fresh counter, the last of at most [n_arg] calls answers
    the arithmetic mean of the values sent, whatever the initial
    [running_avg]. *)
Lemma serve_mean (a0 : Q) (vs : list Q) :
  vs <> [] ->
  inject_Z (Z.of_nat (length vs)) <= n_arg ->
  returns_last (serve f (mk <$> vs) (Globals a0 0)) (mean vs).
Proof.
  intros Hne Hn.
  destruct (serve_sum vs (Globals a0 0) 0 0 Hne) as (avg & Hlast & Havg);
    [done|done|cbn; ring|].
  unfold returns_last. rewrite Hlast. cbn [returns]. unfold mean.
  cbn [plus] in Havg.
  assert (Hlen : 0 < inject_Z (Z.of_nat (length vs))).
  { change 0 with (inject_Z 0). rewrite <- Zlt_Qlt.
    destruct vs; [done|]. cbn [length]. lia. }
  rewrite Qplus_0_l in Havg. rewrite <- Havg. field. lra.
Qed.
End Session.

Lemma run_req_value (v : Q) (g : globals) :
  run (req_value v) g = step 5 v g.
Proof. unfold run, getitem, req_value. by rewrite lookup_singleton_eq. Qed.

Lemma run_modified_req_value_n (n v : Q) (g : globals) :
  run_modified (req_value_n v n) g = step n v g.
Proof.
  unfold run_modified, getitem, req_value_n.
  rewrite lookup_insert_ne, lookup_singleton_eq, lookup_insert_eq; done.
Qed.

Lemma Qmin_nonzero (k : Z) (n : Q) :
  (0 <= k)%Z -> ~ n == 0 -> ~ Qmin (inject_Z (k + 1)) n == 0.
Proof.
  intros Hk Hn.
  assert (0 < inject_Z (k + 1)).
  { change 0 with (inject_Z 0). rewrite <- Zlt_Qlt. lia. }
  destruct (Q.min_spec (inject_Z (k + 1)) n) as [[_ ->]|[_ ->]]; lra.
Qed.

End ScoreFacts.

(** C2, as the code has it: fed [1.0, 2.0, 3.0, 2.0, 1.0] one at a time
    after [init], the fixed-window scorer with [n = 5] answers
    [1.0, 1.5, 2.0, 2.0, 1.8], the arithmetic means of the values seen
    so far; so does the modified script when every request carries
    [n = 5]. *)
Theorem scenario_A_running_averages :
  Forall2 Score.returns
    (Score.serve Score.run (Score.req_value <$> [1; 2; 3; 2; 1]) Score.init).2
    [1; 3 # 2; 2; 2; 9 # 5]
  /\ Forall2 Score.returns
       (Score.serve Score.run_modified
          ((fun v => Score.req_value_n v 5) <$> [1; 2; 3; 2; 1]) Score.init).2
       [1; 3 # 2; 2; 2; 9 # 5].
Proof. split; vm_compute; repeat constructor. Qed.

(** C2, as the spec states it, fails: the fourth and fifth answers are
    not [1.875] and [1.7]. *)
Lemma scenario_A_spec_values_fail :
  ~ Forall2 Score.returns
      (Score.serve Score.run (Score.req_value <$> [1; 2; 3; 2; 1]) Score.init).2
      [1; 3 # 2; 2; 15 # 8; 17 # 10].
Proof.
  intros H. vm_compute in H.
  do 3 (apply Forall2_cons_1 in H as [_ H]).
  apply Forall2_cons_1 in H as [H _]. discriminate H.
Qed.

(** C6, as the code has it: a call whose payload holds [value] performs
    one truncated-Welford step and answers the new average, with [n = 5]
    in the original script whatever else the payload holds, and with the
    payload's own (non-zero) [n] in the modified script, where a payload
    without [n] raises [KeyError] and changes nothing. *)
Theorem run_performs_one_step (raw_data : gmap string Q) (value : Q)
    (g : Score.globals) :
  raw_data !! "value" = Some value ->
  (0 <= Score.curr_n g)%Z ->
  Score.run raw_data g = Score.answered (Score.spec_score value (Some 5) g)
  /\ (forall n, raw_data !! "n" = Some n -> ~ n == 0 ->
       Score.run_modified raw_data g
       = Score.answered (Score.spec_score value (Some n) g))
  /\ (raw_data !! "n" = None ->
       Score.run_modified raw_data g = (g, Raise (KeyError "n"))).
Proof.
  intros Hv Hk. unfold Score.run, Score.run_modified, getitem. rewrite Hv.
  split; [|split].
  - rewrite step_ok; [done|]. by apply Qmin_nonzero.
  - intros n Hn Hnz. rewrite Hn, step_ok; [done|]. by apply Qmin_nonzero.
  - by intros ->.
Qed.

Lemma run_performs_one_step_witness :
  Score.run (Score.req_value_n 3 2) Score.init
  = Score.answered (Score.spec_score 3 (Some 5) Score.init).
Proof.
  refine (proj1 (run_performs_one_step (Score.req_value_n 3 2) 3 Score.init
                   _ _)).
  - vm_compute. reflexivity.
  - simpl. lia.
Defined.

(** C6, as the spec states it, fails: the original script does not read
    [n] from the payload (after one value [1], the request
    [{value: 3, n: 1}] is answered [2], not [3]), and the modified script
    does not default it (the request [{value: 3}] raises [KeyError]). *)
Lemma run_n_is_not_optional :
  ~ Score.returns
      (Score.run (Score.req_value_n 3 1) (Score.Globals 1 1)).2
      (Score.spec_score 3 (Some 1) (Score.Globals 1 1)).2
  /\ ~ Score.returns
        (Score.run_modified (Score.req_value 3) (Score.Globals 1 1)).2
        (Score.spec_score 3 None (Score.Globals 1 1)).2.
Proof. split; vm_compute; [discriminate | tauto]. Qed.

(** C10: for [1 <= k <= n], after [k] calls with values [v1 .. vk] from
    a zero counter, the last answer is the arithmetic mean
    [(v1 + ... + vk) / k], whatever [running_avg] held initially; [n] is
    5 in the original script and the requests' [n] in the modified
    one. *)
Theorem mean_of_first_calls (a0 : Q) (vs : list Q) :
  (1 <= length vs)%nat ->
  ((length vs <= 5)%nat ->
   Score.returns_last
     (Score.serve Score.run (Score.req_value <$> vs) (Score.Globals a0 0))
     (mean vs))
  /\ (forall n : Q, inject_Z (Z.of_nat (length vs)) <= n ->
       Score.returns_last
         (Score.serve Score.run_modified
            ((fun v => Score.req_value_n v n) <$> vs) (Score.Globals a0 0))
         (mean vs)).
Proof.
  intros Hlen.
  assert (Hne : vs <> []) by (destruct vs; [cbn in Hlen; lia | done]).
  split.
  - intros H5. apply (serve_mean _ _ 5 run_req_value a0 vs Hne).
    change 5 with (inject_Z 5). rewrite <- Zle_Qle. lia.
  - intros n Hn.
    apply (serve_mean _ (fun v => Score.req_value_n v n) n); [|done..].
    intros v g. apply run_modified_req_value_n.
Qed.

Lemma mean_of_first_calls_witness :
  Score.returns_last
    (Score.serve Score.run (Score.req_value <$> [1; 2; 6]) (Score.Globals 7 0))
    (mean [1; 2; 6]).
Proof.
  apply (mean_of_first_calls 7 [1; 2; 6]); simpl; lia.
Defined.

(** ** Running averages *)

Section RunAvgFacts.
Import Develop.

Variable c : Q.

Lemma online_from_length (vs : list Q) : forall r avg,
  length (online_from c r avg vs) = length vs.
Proof. induction vs as [|v vs IH]; intros r avg; cbn; [done|]. by rewrite IH. Qed.

Lemma online_ewm_length (vs : list Q) : length (online_ewm c vs) = length vs.
Proof. destruct vs; cbn; [done|]. by rewrite online_from_length. Qed.

(** Each entry of the stream is obtained from the one before it. *)
Lemma online_from_lookup (vs : list Q) : forall r avg j prev v,
  (avg :: online_from c r avg vs) !! j = Some prev ->
  vs !! j = Some v ->
  online_from c r avg vs !! j
  = Some (prev + (v - prev) / (Qmin c (inject_Z (Z.of_nat (r + j))) + 1)).
Proof.
  induction vs as [|v0 vs IH]; intros r avg j prev v Hprev Hv; [done|].
  destruct j as [|j]; cbn [online_from lookup list_lookup] in *.
  - injection Hprev as <-. injection Hv as <-. by rewrite Nat.add_0_r.
  - replace (r + S j)%nat with (S r + j)%nat by lia. by apply IH.
Qed.

Lemma online_ewm_lookup_S (vs : list Q) (m : nat) (prev v : Q) :
  online_ewm c vs !! m = Some prev ->
  vs !! S m = Some v ->
  online_ewm c vs !! S m
  = Some (prev + (v - prev) / (Qmin c (inject_Z (Z.of_nat (S m))) + 1)).
Proof.
  destruct vs as [|v0 vs]; [done|]. cbn [online_ewm]. intros Hprev Hv.
  change (online_from c 1 v0 vs !! m
          = Some (prev + (v - prev)
                         / (Qmin c (inject_Z (Z.of_nat (1 + m))) + 1))).
  by apply online_from_lookup.
Qed.

(** The array after the passes [r = 1 .. m] of the loop: the first
    [m + 1] entries are final, the rest still zero. *)
Lemma run_avg_loop (v0 : Q) (vs : list Q) (m : nat) :
  let ts := v0 :: vs in
  (m < length ts)%nat ->
  foldl (run_avg_body ts c) (<[0%nat := v0]> (replicate (length ts) 0))
    (seq 1 m)
  = take (S m) (online_ewm c ts) ++ replicate (length ts - S m) 0.
Proof.
  intros ts. induction m as [|m IH]; intros Hm.
  - cbn. by rewrite Nat.sub_0_r.
  - rewrite seq_S, foldl_app, IH by lia. cbn [foldl Nat.add].
    assert (Hlen : length (take (S m) (online_ewm c ts)) = S m).
    { rewrite length_take, online_ewm_length. lia. }
    destruct (lookup_lt_is_Some_2 (online_ewm c ts) m) as [prev Hprev].
    { rewrite online_ewm_length. lia. }
    destruct (lookup_lt_is_Some_2 ts (S m)) as [v Hv]; [lia|].
    unfold run_avg_body.
    replace (S m - 1)%nat with m by lia.
    rewrite (list_lookup_total_correct ts (S m) v Hv).
    rewrite (list_lookup_total_correct _ m prev).
    2:{ rewrite lookup_app_l by lia. rewrite lookup_take_lt by lia. done. }
    rewrite insert_app_r_alt by lia. rewrite Hlen, Nat.sub_diag.
    replace (length ts - S m)%nat with (S (length ts - S (S m))) by lia.
    cbn [replicate]. cbn [insert list_insert].
    rewrite (take_S_r _ (S m) _ (online_ewm_lookup_S ts m prev v Hprev Hv)).
    by rewrite <- app_assoc.
Qed.

(** [run_avg] computes the stream of section 4.1. *)
Lemma run_avg_online (ts : list Q) :
  ts <> [] -> run_avg ts c = Ok (online_ewm c ts).
Proof.
  destruct ts as [|v0 vs]; [done|]. intros _. unfold run_avg.
  cbn [lookup list_lookup].
  rewrite (run_avg_loop v0 vs (length (v0 :: vs) - 1)) by (cbn; lia).
  replace (S (length (v0 :: vs) - 1)) with (length (v0 :: vs)) by (cbn; lia).
  rewrite Nat.sub_diag, app_nil_r.
  rewrite take_ge; [done|]. rewrite online_ewm_length. done.
Qed.

End RunAvgFacts.

(** ** The batch exponential-weighted mean *)

Section EwmFacts.
Import Develop.

Lemma Qsum_fmap_ext {A} (f g : A -> Q) (l : list A) :
  (forall i, f i == g i) -> Qsum (f <$> l) == Qsum (g <$> l).
Proof.
  intros Hfg. induction l as [|i l IH]; cbn; [reflexivity|].
  fold (Qsum (f <$> l)) (Qsum (g <$> l)). by rewrite IH, Hfg.
Qed.

Lemma Qsum_fmap_scale {A} (a : Q) (f : A -> Q) (l : list A) :
  Qsum ((fun i => a * f i) <$> l) == a * Qsum (f <$> l).
Proof.
  induction l as [|i l IH]; cbn; [ring|].
  fold (Qsum ((fun i => a * f i) <$> l)) (Qsum (f <$> l)).
  rewrite IH. ring.
Qed.

Lemma Qpower_succ (q : Q) (i : nat) :
  q ^ Z.of_nat (S i) == q * q ^ Z.of_nat i.
Proof.
  replace (Z.of_nat (S i)) with (1 + Z.of_nat i)%Z by lia.
  rewrite Qpower_plus' by lia. reflexivity.
Qed.

Lemma Qsum_cons (a : Q) (l : list Q) : Qsum (a :: l) = a + Qsum l.
Proof. reflexivity. Qed.

Variable c : Q.

Lemma ewm_num_0 (x : list Q) : ewm_num c x 0 == x !!! 0%nat.
Proof.
  unfold ewm_num. cbn [seq fmap list_fmap Qsum foldr].
  change (decay c ^ Z.of_nat 0) with 1. rewrite Nat.sub_diag. ring.
Qed.

Lemma ewm_den_0 : ewm_den c 0 == 1.
Proof.
  unfold ewm_den. cbn [seq fmap list_fmap Qsum foldr].
  change (decay c ^ Z.of_nat 0) with 1. ring.
Qed.

(** The two weighted sums in Horner form. *)
Lemma ewm_num_S (x : list Q) (t : nat) :
  ewm_num c x (S t) == x !!! S t + decay c * ewm_num c x t.
Proof.
  unfold ewm_num.
  change (seq 0 (S (S t))) with (0%nat :: seq 1 (S t)).
  rewrite fmap_cons, Qsum_cons, <- fmap_S_seq, <- list_fmap_compose.
  rewrite <- Qsum_fmap_scale.
  apply Qplus_comp.
  - change (decay c ^ Z.of_nat 0) with 1. rewrite Nat.sub_0_r. ring.
  - apply Qsum_fmap_ext. intros i. unfold compose.
    rewrite Qpower_succ. replace (S t - S i)%nat with (t - i)%nat by lia.
    ring.
Qed.

Lemma ewm_den_S (t : nat) : ewm_den c (S t) == 1 + decay c * ewm_den c t.
Proof.
  unfold ewm_den.
  change (seq 0 (S (S t))) with (0%nat :: seq 1 (S t)).
  rewrite fmap_cons, Qsum_cons, <- fmap_S_seq, <- list_fmap_compose.
  rewrite <- Qsum_fmap_scale.
  apply Qplus_comp.
  - reflexivity.
  - apply Qsum_fmap_ext. intros i. unfold compose. apply Qpower_succ.
Qed.

Hypothesis c_nonneg : 0 <= c.

Lemma decay_eq : decay c == c / (1 + c).
Proof. unfold decay. field. lra. Qed.

Lemma decay_nonneg : 0 <= decay c.
Proof.
  rewrite decay_eq. apply Qle_shift_div_l; lra.
Qed.

(** The batch divisor lies between 1 and the stationary divisor
    [c + 1] of the online update. *)
Lemma ewm_den_bounds (t : nat) : 1 <= ewm_den c t /\ ewm_den c t <= 1 + c.
Proof.
  induction t as [|t [IH1 IH2]].
  - rewrite ewm_den_0. lra.
  - rewrite ewm_den_S. pose proof decay_nonneg as Hq. split.
    + assert (0 <= decay c * ewm_den c t) by (apply Qmult_le_0_compat; lra).
      lra.
    + assert (Hc : decay c * (1 + c) == c) by (rewrite decay_eq; field; lra).
      assert (decay c * ewm_den c t <= decay c * (1 + c)).
      { rewrite !(Qmult_comm (decay c)). by apply Qmult_le_compat_r. }
      lra.
Qed.

Lemma ewm_den_nonzero (t : nat) : ~ ewm_den c t == 0.
Proof. destruct (ewm_den_bounds t). lra. Qed.

(** The batch mean obeys the update rule of the online average, with
    its own divisor: the sum of the weights. *)
Lemma ewm_mean_at_S (x : list Q) (t : nat) :
  ewm_mean_at c x (S t)
  == ewm_mean_at c x t
     + (x !!! S t - ewm_mean_at c x t) / ewm_den c (S t).
Proof.
  unfold ewm_mean_at. rewrite ewm_num_S.
  pose proof (ewm_den_nonzero t) as Hd.
  pose proof (ewm_den_nonzero (S t)) as Hd'.
  pose proof (ewm_den_S t) as E.
  set (d' := ewm_den c (S t)) in *. set (d := ewm_den c t) in *.
  set (n := ewm_num c x t). set (v := x !!! S t).
  assert (Hq : decay c == (d' - 1) / d) by (rewrite E; field; exact Hd).
  rewrite Hq. field. split; assumption.
Qed.

Lemma ewm_mean_at_0 (x : list Q) : ewm_mean_at c x 0 == x !!! 0%nat.
Proof. unfold ewm_mean_at. rewrite ewm_num_0, ewm_den_0. field. Qed.

Lemma ewm_mean_length (x : list Q) : length (ewm_mean c x) = length x.
Proof. unfold ewm_mean. by rewrite length_fmap, length_seq. Qed.

Lemma ewm_mean_lookup (x : list Q) (t : nat) :
  (t < length x)%nat -> ewm_mean c x !! t = Some (ewm_mean_at c x t).
Proof.
  intros Ht. unfold ewm_mean. rewrite list_lookup_fmap, lookup_seq_lt by done.
  done.
Qed.

End EwmFacts.

Section ZeroCom.
Import Develop.

Variable c : Q.
Hypothesis c_zero : c == 0.

Lemma decay_zero_com : decay c == 0.
Proof. unfold decay. rewrite c_zero. reflexivity. Qed.

Lemma Qmin_zero_com (r : nat) : Qmin c (inject_Z (Z.of_nat r)) == 0.
Proof.
  pose proof (of_nat_nonneg_Q r). rewrite Q.min_l; [exact c_zero|].
  rewrite c_zero. assumption.
Qed.

(** With no memory ([com = 0]) both averages return their input. *)
Lemma online_ewm_zero_com (x : list Q) (r : nat) (a : Q) :
  online_ewm c x !! r = Some a -> a == x !!! r.
Proof.
  destruct r as [|m]; intros Ha.
  - destruct x as [|v0 x]; [done|]. cbn in Ha. injection Ha as <-.
    reflexivity.
  - pose proof (lookup_lt_Some _ _ _ Ha) as Hlt.
    rewrite online_ewm_length in Hlt.
    destruct (lookup_lt_is_Some_2 (online_ewm c x) m) as [prev Hprev].
    { rewrite online_ewm_length. lia. }
    destruct (lookup_lt_is_Some_2 x (S m) Hlt) as [v Hv].
    rewrite (online_ewm_lookup_S c x m prev v Hprev Hv) in Ha.
    injection Ha as <-.
    rewrite (list_lookup_total_correct x (S m) v Hv).
    rewrite Qmin_zero_com. field.
Qed.

Lemma ewm_mean_at_zero_com (x : list Q) (t : nat) :
  ewm_mean_at c x t == x !!! t.
Proof.
  assert (Hc : 0 <= c) by (rewrite c_zero; lra).
  destruct t as [|t]; [apply ewm_mean_at_0|].
  rewrite (ewm_mean_at_S c Hc), ewm_den_S, decay_zero_com. field.
Qed.

End ZeroCom.

(** C7: on a non-empty input (and [c >= 0]) [run_avg] returns an array
    of the same length with [output[0] = value[0]] and, for every index
    [r >= 1],
    [output[r] = output[r-1] + (value[r] - output[r-1]) / (min(c, r) + 1)],
    where the divisor is positive; with [c = 1] it maps
    [0.0, 10.0, 0.0] to [0.0, 5.0, 2.5]. *)
Theorem run_avg_recurrence :
  (forall (c : Q) (ts : list Q),
     0 <= c -> ts <> [] ->
     exists out,
       Develop.run_avg ts c = Ok out
       /\ length out = length ts
       /\ out !! 0%nat = ts !! 0%nat
       /\ forall r v, (1 <= r)%nat -> ts !! r = Some v ->
            exists prev,
              out !! (r - 1)%nat = Some prev
              /\ 0 < Qmin c (inject_Z (Z.of_nat r)) + 1
              /\ out !! r
                 = Some (prev + (v - prev)
                                / (Qmin c (inject_Z (Z.of_nat r)) + 1)))
  /\ exists out,
       Develop.run_avg [0; 10; 0] 1 = Ok out /\ Forall2 Qeq out [0; 5; 5 # 2].
Proof.
  split.
  - intros c ts Hc Hne. exists (Develop.online_ewm c ts).
    split; [by apply run_avg_online|].
    split; [apply online_ewm_length|].
    split; [by destruct ts|].
    intros r v Hr Hv. destruct r as [|m]; [lia|].
    destruct (lookup_lt_is_Some_2 (Develop.online_ewm c ts) m) as [prev Hprev].
    { rewrite online_ewm_length. apply lookup_lt_Some in Hv. lia. }
    exists prev. replace (S m - 1)%nat with m by lia.
    split; [done|]. split; [|by apply online_ewm_lookup_S].
    pose proof (of_nat_nonneg_Q (S m)).
    destruct (Q.min_spec c (inject_Z (Z.of_nat (S m)))) as [[_ ->]|[_ ->]]; lra.
  - eexists. split; [reflexivity|]. vm_compute. repeat constructor.
Qed.

Lemma run_avg_recurrence_witness :
  exists out,
    Develop.run_avg [4; 8; 6] 2 = Ok out
    /\ length out = 3%nat
    /\ out !! 0%nat = Some 4
    /\ forall r v, (1 <= r)%nat -> [4; 8; 6] !! r = Some v ->
         exists prev,
           out !! (r - 1)%nat = Some prev
           /\ 0 < Qmin 2 (inject_Z (Z.of_nat r)) + 1
           /\ out !! r
              = Some (prev + (v - prev) / (Qmin 2 (inject_Z (Z.of_nat r)) + 1)).
Proof.
  refine (proj1 run_avg_recurrence 2 [4; 8; 6] _ _).
  - vm_compute. discriminate.
  - discriminate.
Defined.

Section PositiveCom.
Import Develop.

Variable c : Q.
Hypothesis c_pos : 0 < c.

Lemma decay_pos : 0 < decay c.
Proof.
  rewrite decay_eq by lra. apply Qlt_shift_div_l; lra.
Qed.

Lemma decay_lt_1 : decay c < 1.
Proof.
  rewrite decay_eq by lra. apply Qlt_shift_div_r; lra.
Qed.

(** With memory ([c > 0]) the sum of the weights stays strictly below
    its limit [c + 1]. *)
Lemma ewm_den_lt_limit (t : nat) : ewm_den c t < 1 + c.
Proof.
  pose proof decay_pos as Hq.
  assert (Hqc : decay c * (1 + c) == c) by (rewrite decay_eq by lra; field; lra).
  induction t as [|t IH].
  - rewrite ewm_den_0. lra.
  - rewrite ewm_den_S.
    assert (decay c * ewm_den c t < decay c * (1 + c)).
    { rewrite !(Qmult_comm (decay c)). by apply Qmult_lt_compat_r. }
    lra.
Qed.

(** It also stays strictly below the number of values seen, from the
    second value on. *)
Lemma ewm_den_lt_count (t : nat) :
  ewm_den c (S t) < inject_Z (Z.of_nat (S t)) + 1.
Proof.
  pose proof decay_lt_1 as Hq1. pose proof decay_pos as Hq0.
  assert (Hle : forall k, ewm_den c k <= inject_Z (Z.of_nat k) + 1).
  { induction k as [|k IH].
    - rewrite ewm_den_0. change (inject_Z (Z.of_nat 0)) with 0. lra.
    - rewrite ewm_den_S, of_nat_S_Q.
      destruct (ewm_den_bounds c ltac:(lra) k) as [H1 _].
      assert (decay c * ewm_den c k <= 1 * ewm_den c k)
        by (apply Qmult_le_compat_r; lra).
      lra. }
  rewrite ewm_den_S, of_nat_S_Q.
  destruct (ewm_den_bounds c ltac:(lra) t) as [H1 _].
  assert (decay c * ewm_den c t < 1 * ewm_den c t)
    by (apply Qmult_lt_compat_r; lra).
  specialize (Hle t). lra.
Qed.

(** So the batch mean divides by strictly less than the online update
    at every index after the first. *)
Lemma ewm_den_lt_online (r : nat) :
  (1 <= r)%nat -> ewm_den c r < Qmin c (inject_Z (Z.of_nat r)) + 1.
Proof.
  intros Hr. destruct r as [|t]; [lia|].
  pose proof (ewm_den_lt_limit (S t)). pose proof (ewm_den_lt_count t).
  destruct (Q.min_spec c (inject_Z (Z.of_nat (S t)))) as [[_ ->]|[_ ->]]; lra.
Qed.

End PositiveCom.

(** C1, as the code has it: the online [run_avg] and the batch
    exponential-weighted mean have the same length and the same first
    entry; they agree at every index when [c = 0]; in general both
    follow the same update, [run_avg] with the divisor [min(c, r) + 1]
    and the batch mean with the sum of the weights
    [1 + q + ... + q^r], [q = c / (c + 1)]; that sum lies between 1
    and [c + 1], and for [c > 0] it is strictly smaller than
    [min(c, r) + 1] at every index [r >= 1]. *)
Theorem online_batch_relation (c : Q) (x out : list Q) :
  0 <= c ->
  Develop.run_avg x c = Ok out ->
  (length out = length x /\ length (Develop.ewm_mean c x) = length x)
  /\ (forall a b, out !! 0%nat = Some a ->
        Develop.ewm_mean c x !! 0%nat = Some b -> a == b)
  /\ (c == 0 -> forall r a b, out !! r = Some a ->
        Develop.ewm_mean c x !! r = Some b -> a == b)
  /\ (forall r a v, out !! r = Some a -> x !! S r = Some v ->
        out !! S r
        = Some (a + (v - a) / (Qmin c (inject_Z (Z.of_nat (S r))) + 1)))
  /\ (forall r y y' v, Develop.ewm_mean c x !! r = Some y ->
        Develop.ewm_mean c x !! S r = Some y' -> x !! S r = Some v ->
        y' == y + (v - y) / Develop.ewm_den c (S r))
  /\ (forall r, 1 <= Develop.ewm_den c r /\ Develop.ewm_den c r <= 1 + c)
  /\ (0 < c -> forall r, (1 <= r)%nat ->
        Develop.ewm_den c r < Qmin c (inject_Z (Z.of_nat r)) + 1).
Proof.
  intros Hc Hrun.
  assert (Hne : x <> []) by (intros ->; discriminate Hrun).
  rewrite run_avg_online in Hrun by done. injection Hrun as <-.
  assert (Hb : forall r b, Develop.ewm_mean c x !! r = Some b ->
                 b = Develop.ewm_mean_at c x r).
  { intros r b Hlk. pose proof (lookup_lt_Some _ _ _ Hlk) as Hlt.
    rewrite ewm_mean_length in Hlt.
    rewrite ewm_mean_lookup in Hlk by done. congruence. }
  split; [split; [apply online_ewm_length | apply ewm_mean_length]|].
  split; [|split; [|split; [|split; [|split]]]].
  - intros a b Ha Hlk. rewrite (Hb _ _ Hlk), ewm_mean_at_0.
    destruct x as [|v0 x]; [done|]. cbn in Ha. injection Ha as <-. reflexivity.
  - intros Hz r a b Ha Hlk.
    rewrite (Hb _ _ Hlk), (ewm_mean_at_zero_com c Hz).
    by apply (online_ewm_zero_com c Hz).
  - intros r a v Ha Hv. by apply online_ewm_lookup_S.
  - intros r y y' v Hy Hy' Hv.
    rewrite (Hb _ _ Hy), (Hb _ _ Hy'), (ewm_mean_at_S c Hc).
    by rewrite (list_lookup_total_correct x (S r) v Hv).
  - intros r. by apply ewm_den_bounds.
  - intros Hpos r Hr. by apply ewm_den_lt_online.
Qed.

Lemma online_batch_relation_witness :
  exists out,
    Develop.run_avg [0; 10; 0] 1 = Ok out
    /\ (forall r a v, out !! r = Some a -> [0; 10; 0] !! S r = Some v ->
          out !! S r
          = Some (a + (v - a) / (Qmin 1 (inject_Z (Z.of_nat (S r))) + 1)))
    /\ (0 < 1 -> forall r, (1 <= r)%nat ->
          Develop.ewm_den 1 r < Qmin 1 (inject_Z (Z.of_nat r)) + 1).
Proof.
  eexists. split; [reflexivity|].
  pose proof (online_batch_relation 1 [0; 10; 0] _ ltac:(vm_compute; discriminate)
                eq_refl) as H.
  split; [exact (proj1 (proj2 (proj2 (proj2 H))))|].
  exact (proj2 (proj2 (proj2 (proj2 (proj2 (proj2 H)))))).
Defined.

(** C1, as the spec states it, fails: with [c = 1] on [0, 10, 0] the
    online average at index 1 is [5], the batch mean there is [20/3];
    nor does the recursive form of the batch mean ([adjust=False]) match
    in general: with [c = 2] on [0, 9] it gives [3] at index 1 where the
    online average is [9/2]. *)
Lemma online_batch_parity_fails :
  (exists out a b,
     Develop.run_avg [0; 10; 0] 1 = Ok out
     /\ out !! 1%nat = Some a
     /\ Develop.ewm_mean 1 [0; 10; 0] !! 1%nat = Some b
     /\ a == 5 /\ b == 20 # 3 /\ ~ a == b)
  /\ (exists out a b,
        Develop.run_avg [0; 9] 2 = Ok out
        /\ out !! 1%nat = Some a
        /\ Develop.ewm_mean_unadjusted 2 [0; 9] !! 1%nat = Some b
        /\ a == 9 # 2 /\ b == 3 /\ ~ a == b).
Proof.
  split; do 3 eexists;
    (split; [reflexivity|]); (split; [reflexivity|]); (split; [reflexivity|]);
    vm_compute; repeat split; discriminate.
Qed.

(** ** The window handed to the oracle *)

Section WindowFacts.
Import Develop.

Lemma iloc_length {A} (df : list A) (a b : Z) :
  (0 <= a)%Z -> (0 <= b)%Z ->
  Z.of_nat (length (iloc df a b))
  = Z.max 0 (Z.min (Z.of_nat (length df)) b
             - Z.min (Z.of_nat (length df)) a).
Proof.
  intros Ha Hb. unfold iloc, slice_bound.
  destruct (Z.ltb_spec a 0), (Z.ltb_spec b 0); try lia.
  rewrite length_take, length_drop. lia.
Qed.

(** Within the frame, the slice [a:b] is what follows the first [a]
    of the first [b] rows. *)
Lemma iloc_take {A} (df : list A) (a b : Z) :
  (0 <= a <= b)%Z -> (b <= Z.of_nat (length df))%Z ->
  take (Z.to_nat b) df = take (Z.to_nat a) df ++ iloc df a b.
Proof.
  intros Ha Hb. unfold iloc, slice_bound.
  destruct (Z.ltb_spec a 0), (Z.ltb_spec b 0); try lia.
  rewrite !Z.min_r by lia. rewrite take_take_drop. f_equal. lia.
Qed.


Lemma window_length (df : list row) (W stop : Z) :
  (0 <= W)%Z -> (0 <= stop)%Z -> (stop <= Z.of_nat (length df))%Z ->
  Z.of_nat (length (window df W stop)) = Z.min W stop.
Proof.
  intros HW Hs Hin. unfold window. rewrite iloc_length by lia. lia.
Qed.

(** The last row of the window is the row just before [stop]. *)
Lemma window_last (df : list row) (W stop : Z) :
  (1 <= W)%Z -> (1 <= stop)%Z -> (stop <= Z.of_nat (length df))%Z ->
  last (window df W stop) = df !! Z.to_nat (stop - 1).
Proof.
  intros HW Hs Hlen.
  pose proof (iloc_take df (Z.max 0 (stop - W)) stop) as Htake.
  pose proof (window_length df W stop) as Hwl. fold (window df W stop) in Htake.
  destruct (last_is_Some (window df W stop)) as [_ [r Hr]].
  { intros E. rewrite E in Hwl. cbn in Hwl. lia. }
  rewrite Hr. apply last_Some in Hr as [w' Hw'].
  rewrite Hw', app_assoc in Htake by lia.
  assert (Hlk : take (Z.to_nat stop) df !! Z.to_nat (stop - 1) = Some r).
  { rewrite Htake by lia. apply list_lookup_middle.
    apply (f_equal length) in Htake; [|lia..].
    rewrite length_take, !length_app in Htake. cbn in Htake.
    rewrite length_app. lia. }
  rewrite lookup_take_lt in Hlk by lia. done.
Qed.

End WindowFacts.



(** ** The verdict of the windowed detector *)

Section DetectFacts.
Import Develop.

Lemma sorted_le_last (l : list Z) (x y : Z) :
  StronglySorted Z.le l -> x ∈ l -> last l = Some y -> (x <= y)%Z.
Proof.
  intros Hs Hx Hy. apply last_Some in Hy as [l' ->].
  apply elem_of_app in Hx as [Hx|Hx].
  - eapply (StronglySorted_app_1_elem_of Z.le); [exact Hs|exact Hx|].
    apply list_elem_of_singleton. reflexivity.
  - apply list_elem_of_singleton in Hx. lia.
Qed.

Lemma sublist_sorted (l1 l2 : list Z) :
  l1 `sublist_of` l2 -> StronglySorted Z.le l2 -> StronglySorted Z.le l1.
Proof.
  induction 1 as [|x l1 l2 Hsub IH|x l1 l2 Hsub IH]; intros Hs; [done|..].
  - apply StronglySorted_cons in Hs as [Hall Hs].
    apply StronglySorted_cons. split; [|by apply IH].
    rewrite Forall_forall in Hall |- *. intros y Hy. apply Hall.
    by eapply elem_of_sublist.
  - apply StronglySorted_cons in Hs as [_ Hs]. by apply IH.
Qed.

(** When the oracle returns rows of the window in the order of the
    window, and the window is in chronological order, the verdict is
    positive exactly when the last timestamp of the window is among
    the flagged ones. *)
Lemma verdict_spec (df_win anoms : list row) :
  anoms `sublist_of` df_win ->
  StronglySorted Z.le (timestamp <$> df_win) ->
  exists b,
    verdict df_win anoms = Ok b
    /\ (b = true <->
        exists t, last (timestamp <$> df_win) = Some t
                  /\ t ∈ timestamp <$> anoms).
Proof.
  intros Hsub Hsorted. unfold verdict.
  destruct (last (timestamp <$> anoms)) as [a|] eqn:Ha.
  2:{ apply last_None, fmap_nil_inv in Ha. subst anoms. cbn.
      exists false. split; [done|]. split; [done|].
      intros (t & _ & Ht). by apply elem_of_nil in Ht. }
  assert (Hfsub : (timestamp <$> anoms) `sublist_of` (timestamp <$> df_win))
    by (by apply fmap_sublist).
  pose proof (last_Some_elem_of _ _ Ha) as Hain.
  destruct (last (timestamp <$> df_win)) as [ts|] eqn:Hts.
  2:{ apply last_None in Hts. rewrite Hts in Hfsub.
      apply sublist_nil_r in Hfsub. rewrite Hfsub in Ha. done. }
  assert (Hlen : (0 <? length anoms)%nat = true).
  { apply Nat.ltb_lt. destruct anoms; [done|cbn; lia]. }
  rewrite Hlen. unfold tail1. rewrite Hts, Ha. cbn.
  destruct (Z.eqb_spec ts a) as [->|Hne].
  - exists true. split; [done|]. split; [|done]. intros _. by exists a.
  - exists false. split; [done|]. split; [done|].
    intros (t & [= <-] & Ht). exfalso. apply Hne.
    apply Z.le_antisymm.
    + eapply sorted_le_last; [|exact Ht|exact Ha].
      by eapply sublist_sorted.
    + eapply sorted_le_last; [exact Hsorted| |exact Hts].
      by eapply elem_of_sublist.
Qed.

End DetectFacts.

(** C5: when the oracle returns (rows of the window, in the window's
    chronological order), [eval] and [detect_ts_online] report
    [is_anomaly = true] if and only if the timestamp of the last row of
    the window is among the flagged timestamps; flags on other
    timestamps alone give [false]. *)
Theorem is_anomaly_iff_last_flagged (detect_ts : Develop.oracle) (now : Q)
    (df : list Develop.row) (W stop : Z) (dt : Q) (anoms : list Develop.row) :
  detect_ts (Develop.window df W stop) = (dt, Ok anoms) ->
  anoms `sublist_of` Develop.window df W stop ->
  StronglySorted Z.le (Develop.timestamp <$> Develop.window df W stop) ->
  exists b,
    Develop.eval detect_ts now df W stop = Ok (b, now + dt - now)
    /\ Develop.detect_ts_online detect_ts now df W stop
       = Ok (b, now + dt - now)
    /\ (b = true <->
        exists t,
          last (Develop.timestamp <$> Develop.window df W stop) = Some t
          /\ t ∈ Develop.timestamp <$> anoms).
Proof.
  intros Hres Hsub Hsorted.
  destruct (verdict_spec _ _ Hsub Hsorted) as (b & Hv & Hiff).
  exists b. unfold Develop.eval, Develop.detect_ts_online.
  rewrite Hres. cbn. rewrite Hv. done.
Qed.

Lemma is_anomaly_iff_last_flagged_witness :
  exists b,
    Develop.eval (Develop.flag_timestamp 30) 7 Develop.frame4 2 3
    = Ok (b, 7 + 0 - 7)
    /\ Develop.detect_ts_online (Develop.flag_timestamp 30) 7 Develop.frame4 2 3
       = Ok (b, 7 + 0 - 7)
    /\ (b = true <->
        exists t,
          last (Develop.timestamp <$> Develop.window Develop.frame4 2 3)
          = Some t
          /\ t ∈ Develop.timestamp <$> [Develop.Row 30 3]).
Proof.
  apply (is_anomaly_iff_last_flagged (Develop.flag_timestamp 30) 7
           Develop.frame4 2 3 0 [Develop.Row 30 3]).
  - reflexivity.
  - apply sublist_cons, sublist_skip, sublist_nil.
  - change (StronglySorted Z.le [20; 30]%Z).
    repeat (constructor; try lia).
Defined.

(** C4, as the code has it: when the oracle raises a [ValueError] on the
    window, [eval] catches it and returns [is_anomaly = False] together
    with the initial [run_time = -1]; and [eval] never lets a
    [ValueError] through. *)
Theorem eval_catches_domain_error (detect_ts : Develop.oracle) (now : Q)
    (df : list Develop.row) (W stop : Z) (dt : Q) :
  detect_ts (Develop.window df W stop) = (dt, Raise ValueError) ->
  Develop.eval detect_ts now df W stop = Ok (false, -1)
  /\ forall (o : Develop.oracle) (t : Q) (f : list Develop.row) (w s : Z),
       Develop.eval o t f w s <> Raise ValueError.
Proof.
  intros Hres. split.
  - unfold Develop.eval. by rewrite Hres.
  - intros o t f w s. unfold Develop.eval.
    destruct (o (Develop.window f w s)) as [d [anoms|[]]]; try done.
    destruct (Develop.verdict _ anoms) as [b|[]]; done.
Qed.

Lemma eval_catches_domain_error_witness :
  Develop.eval (Develop.failing_after 3 ValueError) 7 Develop.frame4 2 3
  = Ok (false, -1)
  /\ forall (o : Develop.oracle) (t : Q) (f : list Develop.row) (w s : Z),
       Develop.eval o t f w s <> Raise ValueError.
Proof.
  apply (eval_catches_domain_error (Develop.failing_after 3 ValueError) 7
           Develop.frame4 2 3 3).
  reflexivity.
Defined.

(** C4, as the spec states it, fails: after an oracle that runs for 3
    seconds and then raises [ValueError], [eval] reports the run time
    [-1], not the 3 seconds elapsed; and [detect_ts_online], which has
    no handler, raises. *)
Lemma failure_time_not_recorded :
  (exists rt,
     Develop.eval (Develop.failing_after 3 ValueError) 7 Develop.frame4 2 3
     = Ok (false, rt)
     /\ ~ rt == 3)
  /\ Develop.detect_ts_online (Develop.failing_after 3 ValueError) 7
       Develop.frame4 2 3
     = Raise ValueError.
Proof.
  split; [|reflexivity]. exists (-1). split; [reflexivity|]. discriminate.
Qed.

(** ** The evaluation harness *)

Section HarnessFacts.
Import Develop.

Variable shuffle : nat -> list Z -> list Z.
Variable timestamps : list Z.

(** The retry loop always ends: it makes at most [101 - counter]
    further shuffles, hence at most one more test of its condition
    than that. *)
Lemma resample_total (n : nat) : forall fuel rng counter a,
  (Z.to_nat (101 - counter) <= n)%nat -> (S n <= fuel)%nat ->
  is_Some (resample shuffle timestamps fuel rng counter a).
Proof.
  induction n as [|n IH]; intros fuel rng counter a Hn Hfuel;
    (destruct fuel as [|fuel]; [lia|]); cbn;
    (destruct (a !! 0%nat), (timestamps !! 0%nat); try done);
    (destruct (_ <? _)%Z; [|done]);
    (destruct (Z.ltb_spec 100 counter); [done|]).
  - lia.
  - apply IH; lia.
Qed.

Hypothesis shuffle_perm : forall k l, shuffle k l ≡ₚ l.

(** When every anomaly lies before the usable range, reshuffling
    cannot help: the loop gives up once the counter has passed 100,
    after [101 - counter] further shuffles. *)
Lemma resample_gives_up (t0 : Z) (n : nat) : forall fuel rng counter a,
  timestamps !! 0%nat = Some t0 ->
  a <> [] -> Forall (fun x => (x < t0)%Z) a ->
  (0 <= counter)%Z -> n = Z.to_nat (101 - counter) -> (counter <= 101)%Z ->
  (S n <= fuel)%nat ->
  resample shuffle timestamps fuel rng counter a
  = Some ((rng + n)%nat, Ok GiveUp).
Proof.
  induction n as [|n IH]; intros fuel rng counter a Ht Hne Hall Hc Hn Hle Hf;
    (destruct fuel as [|fuel]; [lia|]); cbn; rewrite Ht;
    (destruct a as [|a0 a]; [done|]); cbn;
    pose proof (Forall_inv Hall) as Ha0; cbn in Ha0;
    (destruct (Z.ltb_spec a0 t0); [|lia]).
  - destruct (Z.ltb_spec 100 counter); [|lia]. by rewrite Nat.add_0_r.
  - destruct (Z.ltb_spec 100 counter); [lia|].
    rewrite (IH fuel (S rng) (counter + 1)%Z); [f_equal; f_equal; lia|done|..];
      try lia.
    + intros E. pose proof (shuffle_perm rng (a0 :: a)) as Hp.
      rewrite E in Hp. by apply Permutation_nil_l in Hp.
    + by rewrite (shuffle_perm rng (a0 :: a)).
Qed.

Lemma pick_anomaly_gives_up (t0 : Z) (fuel rng : nat) (e : epoch) :
  timestamps !! 0%nat = Some t0 ->
  anoms_s e <> [] -> Forall (fun x => (x < t0)%Z) (anoms_s e) ->
  (102 <= fuel)%nat ->
  pick_anomaly shuffle timestamps fuel rng e
  = Some ((rng + 102)%nat, Ok GiveUp).
Proof.
  intros Ht Hne Hall Hf. unfold pick_anomaly.
  rewrite (resample_gives_up t0 101); try done; try lia.
  - f_equal. f_equal. lia.
  - intros E. pose proof (shuffle_perm rng (anoms_s e)) as Hp.
    rewrite E in Hp. by apply Permutation_nil_l in Hp.
  - by rewrite (shuffle_perm rng (anoms_s e)).
Qed.

(** With no anomaly at all the first test of the loop condition reads
    [anoms_timestamps[0]] of an empty array. *)
Lemma pick_anomaly_empty (fuel rng : nat) (e : epoch) :
  anoms_s e = [] -> (1 <= fuel)%nat ->
  pick_anomaly shuffle timestamps fuel rng e = Some (S rng, Raise IndexError).
Proof.
  intros He Hf. unfold pick_anomaly.
  pose proof (shuffle_perm rng (anoms_s e)) as Hp. rewrite He in Hp.
  apply Permutation_nil_r in Hp. rewrite He, Hp.
  destruct fuel as [|fuel]; [lia|]. done.
Qed.

(** A biased trial whose series has anomalies, all before the usable
    range, ends the whole run with the sentinel pair. *)
Lemma sample_run_sentinel (detect_ts : oracle)
    (score_of : list bool -> list bool -> Q) (window_size : Z) (com : Q)
    (t0 : Z) (fuel : nat) (now : Q) (e : epoch) (es : list epoch) :
  timestamps !! 0%nat = Some t0 ->
  df_s e <> [] -> biased e = true ->
  anoms_s e <> [] -> Forall (fun x => (x < t0)%Z) (anoms_s e) ->
  (102 <= fuel)%nat ->
  sample_run detect_ts shuffle score_of timestamps window_size com
    fuel now (e :: es)
  = Some (Ok (0, 9999)).
Proof.
  intros Ht Hdf Hb Hne Hall Hf. unfold sample_run.
  destruct timestamps as [|t ts] eqn:E; [done|]. rewrite <- E.
  cbn [epochs_loop]. unfold run_epoch.
  rewrite run_avg_online by (by destruct (df_s e)).
  rewrite Hb, (pick_anomaly_gives_up t0) by (done || by rewrite E).
  done.
Qed.

End HarnessFacts.

(** C3: the harness passes the index of the candidate timestamp as
    [stop], and the window [iloc[start_index:stop]] ends just before it.
    On four rows stamped 10, 20, 30, 40 with a window of 2 and the
    candidate 40 (index 3) the oracle is shown the rows stamped 20 and
    30: an oracle that flags the candidate wherever it sees it yields
    [y_pred = False], while the window ending one row later contains the
    candidate and yields [True]. *)
Theorem trial_window_excludes_candidate :
  Develop.test_case_index Develop.frame4 40 = Ok 3%Z
  /\ Develop.window Develop.frame4 2 3 = [Develop.Row 20 2; Develop.Row 30 3]
  /\ Develop.run_test_case (Develop.flag_timestamp 40) 2 7
       (Develop.Epoch Develop.raw4 [40%Z] 40 false) Develop.frame4 40
     = Ok (Develop.Sample true false (7 + 0 - 7))
  /\ Develop.detect_ts_online (Develop.flag_timestamp 40) 7 Develop.frame4 2 4
     = Ok (true, 7 + 0 - 7).
Proof. repeat split; vm_compute; reflexivity. Qed.

(** C8: the retry loop is bounded (the run returns [(0.0, 9999.0)] once
    the counter has passed 100) when the series has anomalies and none
    in the usable range; but a series with no anomaly at all makes the
    first test of the loop read [anoms_timestamps[0]] of an empty array,
    and the run ends with [IndexError]. *)
Theorem sample_run_without_anomalies_raises :
  Develop.sample_run (Develop.flag_timestamp 40) Develop.reversing
    (fun _ _ => 1) [30; 40]%Z 2 0 200 7
    [Develop.Epoch Develop.raw4 [] 30 true]
  = Some (Raise IndexError)
  /\ Develop.sample_run (Develop.flag_timestamp 40) Develop.reversing
       (fun _ _ => 1) [30; 40]%Z 2 0 200 7
       [Develop.Epoch Develop.raw4 [10; 20]%Z 30 true]
     = Some (Ok (0, 9999)).
Proof. split; vm_compute; reflexivity. Qed.

(** The notebook's own cell for [run_avg] only stores its placeholder. *)
Example run_avg_template_placeholder :
  Develop.run_avg_template 3 1 [0; 10; 0] = Ok [-1; -1; -1].
Proof. reflexivity. Qed.

(** * Further properties of the code *)

(** ** Sessions with the scoring script *)

Section SessionFacts.
Import Score.

Lemma serve_app (f : gmap string Q -> globals -> globals * result Q)
    (reqs1 reqs2 : list (gmap string Q)) : forall g,
  serve f (reqs1 ++ reqs2) g
  = let '(g1, o1) := serve f reqs1 g in
    let '(g2, o2) := serve f reqs2 g1 in
    (g2, o1 ++ o2).
Proof.
  induction reqs1 as [|r reqs1 IH]; intros g; cbn.
  - by destruct (serve f reqs2 g).
  - destruct (f r g) as [g' out]. rewrite IH.
    destruct (serve f reqs1 g') as [g1 o1].
    by destruct (serve f reqs2 g1).
Qed.

Lemma run_no_value (raw_data : gmap string Q) (g : globals) :
  raw_data !! "value" = None ->
  run raw_data g = (g, Raise (KeyError "value"))
  /\ run_modified raw_data g = (g, Raise (KeyError "value")).
Proof. intros H. unfold run, run_modified, getitem. by rewrite H. Qed.

(** A divisor of at least 1 moves the average towards the value, never
    past it. *)
Lemma div_shrink (d y : Q) : 1 <= d -> 0 <= y -> 0 <= y / d /\ y / d <= y.
Proof.
  intros Hd Hy. split.
  - apply Qle_shift_div_l; lra.
  - apply Qle_shift_div_r; [lra|].
    assert (0 <= y * (d - 1)) by (apply Qmult_le_0_compat; lra). lra.
Qed.

Lemma convex_step (lo hi d x v : Q) :
  1 <= d -> lo <= x <= hi -> lo <= v <= hi ->
  lo <= x + (v - x) / d <= hi.
Proof.
  intros Hd [Hx1 Hx2] [Hv1 Hv2].
  destruct (Qlt_le_dec v x) as [Hlt|Hle].
  - destruct (div_shrink d (x - v) Hd) as [H1 H2]; [lra|].
    assert (E : (v - x) / d == - ((x - v) / d)) by (field; lra).
    rewrite E. lra.
  - destruct (div_shrink d (v - x) Hd) as [H1 H2]; [lra|]. lra.
Qed.

Lemma Qmin_ge_1 (k : Z) (n : Q) :
  (0 <= k)%Z -> 1 <= n -> 1 <= Qmin (inject_Z (k + 1)) n.
Proof.
  intros Hk Hn.
  assert (1 <= inject_Z (k + 1)).
  { change 1 with (inject_Z 1). rewrite <- Zle_Qle. lia. }
  destruct (Q.min_spec (inject_Z (k + 1)) n) as [[_ ->]|[_ ->]]; lra.
Qed.

(** One pass of the shared body keeps the average within the range of
    the values; from a zero counter the old average does not matter. *)
Lemma step_within (lo hi n_arg v : Q) (g : globals) :
  (0 <= curr_n g)%Z -> 1 <= n_arg ->
  curr_n g = 0%Z \/ lo <= running_avg g <= hi ->
  lo <= v <= hi ->
  exists a,
    step n_arg v g = (Globals a (curr_n g + 1), Ok a) /\ lo <= a <= hi.
Proof.
  intros Hk Hn Hg Hv.
  pose proof (Qmin_ge_1 _ _ Hk Hn) as Hd.
  rewrite step_ok by lra. cbn zeta. eexists. split; [reflexivity|].
  destruct Hg as [H0|Hg].
  - rewrite H0. change (inject_Z (0 + 1)) with 1.
    rewrite Q.min_l by exact Hn.
    assert (E : running_avg g + (v - running_avg g) / 1 == v) by field.
    rewrite E. exact Hv.
  - by apply convex_step.
Qed.

Section Handler.
Variable f : gmap string Q -> globals -> globals * result Q.
Variable mk : Q -> gmap string Q.
Variable n_arg : Q.
Hypothesis f_step : forall v g, f (mk v) g = step n_arg v g.
Hypothesis n_arg_ge_1 : 1 <= n_arg.

Lemma serve_within (lo hi : Q) (vs : list Q) : forall g,
  (0 <= curr_n g)%Z ->
  curr_n g = 0%Z \/ lo <= running_avg g <= hi ->
  Forall (fun v => lo <= v <= hi) vs ->
  Forall (fun o => exists a, o = Ok a /\ lo <= a <= hi)
    (serve f (mk <$> vs) g).2.
Proof.
  induction vs as [|v vs IH]; intros g Hk Hg Hvs; [constructor|].
  apply Forall_cons in Hvs as [Hv Hvs].
  cbn [fmap list_fmap serve]. rewrite f_step.
  destruct (step_within lo hi n_arg v g Hk n_arg_ge_1 Hg Hv)
    as (a & -> & Ha).
  specialize (IH (Globals a (curr_n g + 1))).
  destruct (serve f (mk <$> vs) _) as [g' outs]. cbn.
  constructor; [by exists a|]. apply IH; cbn; [lia|by right|done].
Qed.

End Handler.

End SessionFacts.

(** X1: a request without the key [value] is refused with [KeyError]
    and has no effect on the session: the requests before and after it
    are answered as if it had not been sent (both versions of [run]). *)
Theorem request_without_value_is_ignored
    (bad : gmap string Q) (reqs1 reqs2 : list (gmap string Q))
    (g : Score.globals) :
  bad !! "value" = None ->
  Score.serve Score.run (reqs1 ++ bad :: reqs2) g
  = (let '(g', outs) := Score.serve Score.run (reqs1 ++ reqs2) g in
     (g', take (length reqs1) outs ++ Raise (KeyError "value")
            :: drop (length reqs1) outs))
  /\ Score.serve Score.run_modified (reqs1 ++ bad :: reqs2) g
     = (let '(g', outs) :=
          Score.serve Score.run_modified (reqs1 ++ reqs2) g in
        (g', take (length reqs1) outs ++ Raise (KeyError "value")
               :: drop (length reqs1) outs)).
Proof.
  intros Hbad.
  assert (Hlen : forall f reqs g0,
            length (Score.serve f reqs g0).2 = length reqs).
  { intros f reqs. induction reqs as [|r reqs IH]; intros g0; cbn; [done|].
    destruct (f r g0) as [g1 o]. specialize (IH g1).
    destruct (Score.serve f reqs g1). cbn in *. by rewrite IH. }
  split; rewrite !serve_app; cbn [Score.serve].
  - pose proof (Hlen Score.run reqs1 g) as Hl.
    destruct (Score.serve Score.run reqs1 g) as [g1 o1]. cbn in Hl.
    rewrite (proj1 (run_no_value bad g1 Hbad)).
    destruct (Score.serve Score.run reqs2 g1) as [g2 o2].
    by rewrite <- Hl, take_app_length, drop_app_length.
  - pose proof (Hlen Score.run_modified reqs1 g) as Hl.
    destruct (Score.serve Score.run_modified reqs1 g) as [g1 o1]. cbn in Hl.
    rewrite (proj2 (run_no_value bad g1 Hbad)).
    destruct (Score.serve Score.run_modified reqs2 g1) as [g2 o2].
    by rewrite <- Hl, take_app_length, drop_app_length.
Qed.

Lemma request_without_value_is_ignored_witness :
  Score.serve Score.run
    ([Score.req_value 1] ++ ({[ "data" := 7%Q ]} : gmap string Q)
       :: [Score.req_value 3]) Score.init
  = (let '(g', outs) :=
       Score.serve Score.run ([Score.req_value 1] ++ [Score.req_value 3])
         Score.init in
     (g', take (length [Score.req_value 1]) outs
            ++ Raise (KeyError "value")
            :: drop (length [Score.req_value 1]) outs)).
Proof.
  refine (proj1 (request_without_value_is_ignored {[ "data" := 7%Q ]}
                   [Score.req_value 1] [Score.req_value 3] Score.init _)).
  vm_compute. reflexivity.
Defined.

(** X2: in the modified script a request with [n = 0] is refused with
    [ZeroDivisionError]; the average is left as it was, but the counter
    has already been advanced, so the refused request still counts as a
    measurement. *)
Theorem zero_window_request (raw_data : gmap string Q) (value n : Q)
    (g : Score.globals) :
  raw_data !! "value" = Some value ->
  raw_data !! "n" = Some n ->
  n == 0 ->
  (0 <= Score.curr_n g)%Z ->
  Score.run_modified raw_data g
  = (Score.Globals (Score.running_avg g) (Score.curr_n g + 1),
     Raise ZeroDivisionError).
Proof.
  intros Hv Hn Hz Hk. unfold Score.run_modified, getitem, Score.step.
  rewrite Hv, Hn. rewrite pydiv_zero; [done|].
  assert (0 < inject_Z (Score.curr_n g + 1)).
  { change 0 with (inject_Z 0). rewrite <- Zlt_Qlt. lia. }
  rewrite Q.min_r by lra. exact Hz.
Qed.

Lemma zero_window_request_witness :
  Score.run_modified (Score.req_value_n 3 0) (Score.Globals 2 4)
  = (Score.Globals (Score.running_avg (Score.Globals 2 4))
       (Score.curr_n (Score.Globals 2 4) + 1),
     Raise ZeroDivisionError).
Proof.
  apply (zero_window_request (Score.req_value_n 3 0) 3 0 (Score.Globals 2 4)).
  - vm_compute. reflexivity.
  - vm_compute. reflexivity.
  - reflexivity.
  - simpl. lia.
Defined.

Lemma run_with_value (raw_data : gmap string Q) (v : Q) (g : Score.globals) :
  raw_data !! "value" = Some v ->
  (0 <= Score.curr_n g)%Z ->
  Score.run raw_data g = Score.answered (Score.spec_score v (Some 5) g).
Proof.
  intros Hv Hk. unfold Score.run, getitem. rewrite Hv.
  rewrite step_ok; [done|]. by apply Qmin_nonzero.
Qed.

(** X3: for requests whose payload is a dictionary of numbers, and from
    a counter that is not negative, the original [run] answers every
    request that holds [value] and refuses every other one with
    [KeyError]; the counter ends up advanced by the number of requests
    answered. *)
Theorem run_counts_answered_requests (reqs : list (gmap string Q))
    (g : Score.globals) :
  (0 <= Score.curr_n g)%Z ->
  Score.curr_n (Score.serve Score.run reqs g).1
  = (Score.curr_n g
     + Z.of_nat (length (filter (fun r => is_Some (r !! "value")) reqs)))%Z
  /\ Forall2 (fun r o =>
                match r !! "value" with
                | Some _ => exists a, o = Ok a
                | None => o = Raise (KeyError "value")
                end)
       reqs (Score.serve Score.run reqs g).2.
Proof.
  revert g. induction reqs as [|r reqs IH]; intros g Hk.
  - cbn. split; [lia|constructor].
  - cbn [Score.serve]. rewrite filter_cons.
    destruct (r !! "value") as [v|] eqn:Hv.
    + pose proof (run_with_value r v g Hv Hk) as Hrun.
      rewrite Hrun. unfold Score.answered. cbn [fst snd].
      set (g' := (Score.spec_score v (Some 5) g).1).
      destruct (IH g') as [IH1 IH2]; [cbn; lia|].
      destruct (Score.serve Score.run reqs g') as [g'' outs]. cbn in *.
      rewrite decide_True by done. cbn [length]. split; [lia|].
      constructor; [|done]. rewrite Hv. by eexists.
    + rewrite (proj1 (run_no_value r g Hv)).
      destruct (IH g Hk) as [IH1 IH2].
      destruct (Score.serve Score.run reqs g) as [g'' outs]. cbn in *.
      rewrite decide_False by (by intros [? ?]). split; [lia|].
      constructor; [|done]. by rewrite Hv.
Qed.

Lemma run_counts_answered_requests_witness :
  Score.curr_n
    (Score.serve Score.run
       [Score.req_value 1; ({[ "data" := 7%Q ]} : gmap string Q);
        Score.req_value 3] Score.init).1
  = (Score.curr_n Score.init
     + Z.of_nat (length (filter (fun r => is_Some (r !! "value"))
                           [Score.req_value 1;
                            ({[ "data" := 7%Q ]} : gmap string Q);
                            Score.req_value 3])))%Z
  /\ Forall2 (fun r o =>
                match r !! "value" with
                | Some _ => exists a, o = Ok a
                | None => o = Raise (KeyError "value")
                end)
       [Score.req_value 1; ({[ "data" := 7%Q ]} : gmap string Q);
        Score.req_value 3]
       (Score.serve Score.run
          [Score.req_value 1; ({[ "data" := 7%Q ]} : gmap string Q);
           Score.req_value 3] Score.init).2.
Proof.
  apply (run_counts_answered_requests
           [Score.req_value 1; ({[ "data" := 7%Q ]} : gmap string Q);
            Score.req_value 3]
           Score.init).
  simpl. lia.
Defined.

(** X4: from a zero counter, when all values sent lie in a range
    [lo .. hi], so does every answer, whatever [running_avg] held
    initially: with the original script, and with the modified one for
    any [n >= 1]. *)
Theorem answers_within_range (lo hi a0 : Q) (vs : list Q) :
  Forall (fun v => lo <= v <= hi) vs ->
  Forall (fun o => exists a, o = Ok a /\ lo <= a <= hi)
    (Score.serve Score.run (Score.req_value <$> vs) (Score.Globals a0 0)).2
  /\ forall n, 1 <= n ->
       Forall (fun o => exists a, o = Ok a /\ lo <= a <= hi)
         (Score.serve Score.run_modified
            ((fun v => Score.req_value_n v n) <$> vs) (Score.Globals a0 0)).2.
Proof.
  intros Hvs. split.
  - apply (serve_within _ _ 5 run_req_value); [lra|cbn; lia|by left|done].
  - intros n Hn.
    apply (serve_within _ (fun v => Score.req_value_n v n) n);
      [intros v g; apply run_modified_req_value_n|done|cbn; lia|by left|done].
Qed.

Lemma answers_within_range_witness :
  Forall (fun o => exists a, o = Ok a /\ 1 <= a <= 3)
    (Score.serve Score.run (Score.req_value <$> [1; 3; 2])
       (Score.Globals 9 0)).2
  /\ forall n, 1 <= n ->
       Forall (fun o => exists a, o = Ok a /\ 1 <= a <= 3)
         (Score.serve Score.run_modified
            ((fun v => Score.req_value_n v n) <$> [1; 3; 2])
            (Score.Globals 9 0)).2.
Proof.
  apply (answers_within_range 1 3 9 [1; 3; 2]).
  repeat constructor; vm_compute; discriminate.
Defined.

(** X5: once the counter has reached [n - 1] the scorer is an
    exponential filter: the answer is [((n - 1) * avg + value) / n], and
    the counter no longer enters it ([n = 5] in the original script, the
    request's [n > 0] in the modified one). *)
Theorem steady_state_filter (raw_data : gmap string Q) (value : Q)
    (g : Score.globals) :
  raw_data !! "value" = Some value ->
  ((4 <= Score.curr_n g)%Z ->
   exists a,
     Score.run raw_data g = (Score.Globals a (Score.curr_n g + 1), Ok a)
     /\ a == (4 * Score.running_avg g + value) / 5)
  /\ (forall n, raw_data !! "n" = Some n ->
        0 < n -> n <= inject_Z (Score.curr_n g + 1) ->
        exists a,
          Score.run_modified raw_data g
          = (Score.Globals a (Score.curr_n g + 1), Ok a)
          /\ a == ((n - 1) * Score.running_avg g + value) / n).
Proof.
  intros Hv.
  assert (Hstep : forall n, 0 < n -> n <= inject_Z (Score.curr_n g + 1) ->
            exists a,
              Score.step n value g
              = (Score.Globals a (Score.curr_n g + 1), Ok a)
              /\ a == ((n - 1) * Score.running_avg g + value) / n).
  { intros n Hpos Hle.
    assert (Hm : Qmin (inject_Z (Score.curr_n g + 1)) n == n)
      by (by apply Q.min_r).
    rewrite step_ok by (rewrite Hm; lra). cbn zeta.
    eexists. split; [reflexivity|]. rewrite Hm. field. lra. }
  split.
  - intros Hk. unfold Score.run, getitem. rewrite Hv.
    destruct (Hstep 5) as (a & -> & Ha); [lra| |].
    { change 5 with (inject_Z 5). rewrite <- Zle_Qle. lia. }
    exists a. split; [done|]. rewrite Ha. field.
  - intros n Hn Hpos Hle. unfold Score.run_modified, getitem.
    rewrite Hv, Hn. by apply Hstep.
Qed.

Lemma steady_state_filter_witness :
  exists a,
    Score.run (Score.req_value 7) (Score.Globals 2 9)
    = (Score.Globals a (Score.curr_n (Score.Globals 2 9) + 1), Ok a)
    /\ a == (4 * Score.running_avg (Score.Globals 2 9) + 7) / 5.
Proof.
  refine (proj1 (steady_state_filter (Score.req_value 7) 7 (Score.Globals 2 9)
                   _) _).
  - vm_compute. reflexivity.
  - simpl. lia.
Defined.

(** X6: the original script is the modified one with [n] forced to 5,
    and it does not read an [n] sent by the client. *)
Theorem original_is_modified_at_5 (raw_data : gmap string Q) (n : Q)
    (g : Score.globals) :
  Score.run raw_data g = Score.run_modified (<[ "n" := 5 ]> raw_data) g
  /\ Score.run (<[ "n" := n ]> raw_data) g = Score.run raw_data g.
Proof.
  unfold Score.run, Score.run_modified, getitem.
  rewrite lookup_insert_eq, !lookup_insert_ne by done.
  destruct (raw_data !! "value"); split; reflexivity.
Qed.

(** ** The scorer and [run_avg] *)

Section ScorerOnline.
Import Score Develop.

Variable f : gmap string Q -> globals -> globals * result Q.
Variable mk : Q -> gmap string Q.
Variable n_arg : Q.
Hypothesis f_step : forall v g, f (mk v) g = step n_arg v g.
Variable c : Q.
Hypothesis c_nonneg : 0 <= c.
Hypothesis n_arg_c : n_arg == c + 1.

(** The divisor of the scorer at its [r+1]-th call is the divisor of
    [run_avg] at index [r]. *)
Lemma divisor_agrees (r : nat) :
  Qmin (inject_Z (Z.of_nat r + 1)) n_arg
  == Qmin c (inject_Z (Z.of_nat r)) + 1.
Proof.
  rewrite n_arg_c, inject_Z_plus. change (inject_Z 1) with 1.
  rewrite Q.plus_min_distr_r. by rewrite Q.min_comm.
Qed.

Lemma divisor_positive (r : nat) : 0 < Qmin c (inject_Z (Z.of_nat r)) + 1.
Proof.
  pose proof (of_nat_nonneg_Q r).
  destruct (Q.min_spec c (inject_Z (Z.of_nat r))) as [[_ ->]|[_ ->]]; lra.
Qed.

Lemma serve_online_from (vs : list Q) : forall (r : nat) (avg : Q) (g : globals),
  curr_n g = Z.of_nat r ->
  running_avg g == avg ->
  Forall2 returns (serve f (mk <$> vs) g).2 (online_from c r avg vs).
Proof.
  induction vs as [|v vs IH]; intros r avg g Hr Havg; [constructor|].
  rewrite fmap_cons. cbn [serve online_from]. rewrite f_step.
  pose proof (divisor_positive r) as Hp.
  assert (Hd : Qmin (inject_Z (curr_n g + 1)) n_arg
               == Qmin c (inject_Z (Z.of_nat r)) + 1)
    by (rewrite Hr; apply divisor_agrees).
  rewrite step_ok by (rewrite Hd; lra). cbv beta iota zeta.
  set (a := running_avg g + (v - running_avg g) / _).
  set (a' := avg + (v - avg) / _).
  assert (Ha : a == a') by (unfold a, a'; by rewrite Hd, Havg).
  specialize (IH (S r) a' (Globals a (curr_n g + 1))).
  destruct (serve f (mk <$> vs) _) as [g' outs]. cbn.
  constructor; [exact Ha|]. apply IH; cbn; [lia|exact Ha].
Qed.

Lemma serve_online_ewm (a0 : Q) (vs : list Q) :
  Forall2 returns (serve f (mk <$> vs) (Globals a0 0)).2 (online_ewm c vs).
Proof.
  destruct vs as [|v vs]; [constructor|].
  rewrite fmap_cons. cbn [serve online_ewm]. rewrite f_step.
  pose proof (divisor_agrees 0) as Hd. pose proof (divisor_positive 0) as Hp.
  assert (Hd1 : Qmin (inject_Z (0 + 1)) n_arg == 1).
  { change (0 + 1)%Z with (Z.of_nat 0 + 1)%Z. rewrite Hd.
    change (inject_Z (Z.of_nat 0)) with 0. rewrite Q.min_r by exact c_nonneg.
    reflexivity. }
  rewrite step_ok by (cbn [curr_n]; rewrite Hd1; lra). cbv beta iota zeta.
  cbn [curr_n running_avg].
  set (a := a0 + (v - a0) / _).
  assert (Ha : a == v) by (unfold a; rewrite Hd1; field).
  pose proof (serve_online_from vs 1 v (Globals a (0 + 1))) as IH.
  destruct (serve f (mk <$> vs) _) as [g' outs]. cbn.
  constructor; [exact Ha|]. apply IH; [done|exact Ha].
Qed.

End ScorerOnline.

(** X7: the deployed scorer computes [run_avg] one value at a time: sent
    the values of a series from a zero counter, the modified script with
    [n = c + 1] answers the entries of [run_avg] with center of mass [c],
    whatever [running_avg] held initially; the original script does so
    for [c = 4]. *)
Theorem scorer_streams_run_avg (c a0 : Q) (ts out : list Q) :
  0 <= c ->
  Develop.run_avg ts c = Ok out ->
  Forall2 Score.returns
    (Score.serve Score.run_modified
       ((fun v => Score.req_value_n v (c + 1)) <$> ts) (Score.Globals a0 0)).2
    out
  /\ (c == 4 ->
      Forall2 Score.returns
        (Score.serve Score.run (Score.req_value <$> ts) (Score.Globals a0 0)).2
        out).
Proof.
  intros Hc Hrun.
  assert (Hne : ts <> []) by (intros ->; discriminate Hrun).
  rewrite run_avg_online in Hrun by done. injection Hrun as <-.
  split.
  - apply (serve_online_ewm _ (fun v => Score.req_value_n v (c + 1)) (c + 1));
      [intros v g; apply run_modified_req_value_n|done|reflexivity].
  - intros H4. apply (serve_online_ewm _ _ 5 run_req_value); [done|].
    rewrite H4. reflexivity.
Qed.

Lemma scorer_streams_run_avg_witness :
  Forall2 Score.returns
    (Score.serve Score.run_modified
       ((fun v => Score.req_value_n v (1 + 1)) <$> [0; 10; 0])
       (Score.Globals 9 0)).2
    (Develop.online_ewm 1 [0; 10; 0]).
Proof.
  refine (proj1 (scorer_streams_run_avg 1 9 [0; 10; 0] _ _ eq_refl)).
  vm_compute. discriminate.
Defined.

(** ** More on [run_avg] *)

Section RunAvgMore.
Import Develop.

Variable c : Q.

Lemma online_from_take (n : nat) (vs : list Q) : forall r avg,
  take n (online_from c r avg vs) = online_from c r avg (take n vs).
Proof.
  revert n. induction vs as [|v vs IH]; intros n r avg.
  - rewrite take_nil. cbn. by rewrite take_nil.
  - destruct n as [|n]; [done|]. cbn. by rewrite IH.
Qed.

Lemma online_ewm_take (n : nat) (vs : list Q) :
  take n (online_ewm c vs) = online_ewm c (take n vs).
Proof.
  destruct vs as [|v vs]; [rewrite take_nil; cbn; by rewrite take_nil|].
  destruct n as [|n]; [done|]. cbn. by rewrite online_from_take.
Qed.

End RunAvgMore.

(** X8: [run_avg] is causal: its entries up to an index depend only on
    the input up to that index, so running it on the first [n >= 1]
    values gives the first [n] entries of the run on the whole series. *)
Theorem run_avg_prefix (c : Q) (ts out : list Q) (n : nat) :
  0 <= c -> (1 <= n)%nat ->
  Develop.run_avg ts c = Ok out ->
  Develop.run_avg (take n ts) c = Ok (take n out).
Proof.
  intros Hc Hn Hrun.
  assert (Hne : ts <> []) by (intros ->; discriminate Hrun).
  rewrite run_avg_online in Hrun by done. injection Hrun as <-.
  rewrite run_avg_online, online_ewm_take; [done|].
  destruct ts; [done|]. destruct n; [lia|done].
Qed.

Lemma run_avg_prefix_witness :
  Develop.run_avg (take 2 [4; 8; 6]) 1
  = Ok (take 2 (Develop.online_ewm 1 [4; 8; 6])).
Proof.
  apply (run_avg_prefix 1 [4; 8; 6] _ 2).
  - vm_compute. discriminate.
  - lia.
  - reflexivity.
Defined.

(** X9: while the index does not exceed the center of mass, [run_avg] is
    the plain running mean: for [r <= c] its entry at [r] is the
    arithmetic mean of the first [r + 1] values. *)
Theorem run_avg_warm_up_mean (c : Q) (ts out : list Q) (r : nat) (a : Q) :
  0 <= c ->
  Develop.run_avg ts c = Ok out ->
  inject_Z (Z.of_nat r) <= c ->
  out !! r = Some a ->
  a == mean (take (S r) ts).
Proof.
  intros Hc Hrun Hr Ha.
  assert (Hne : ts <> []) by (intros ->; discriminate Hrun).
  rewrite run_avg_online in Hrun by done. injection Hrun as <-.
  pose proof (lookup_lt_Some _ _ _ Ha) as Hlt.
  rewrite online_ewm_length in Hlt.
  set (vs := take (S r) ts).
  assert (Hlen : length vs = S r) by (unfold vs; rewrite length_take; lia).
  assert (Hlast : last (Develop.online_ewm c vs) = Some a).
  { unfold vs. rewrite <- online_ewm_take, last_lookup, length_take.
    rewrite online_ewm_length.
    replace (Init.Nat.pred (S r `min` length ts)) with r by lia.
    by rewrite lookup_take_lt by lia. }
  pose proof (serve_online_ewm _ (fun v => Score.req_value_n v (c + 1))
                (c + 1) (fun v g => run_modified_req_value_n (c + 1) v g)
                c Hc (Qeq_refl _) 0 vs) as Hsim.
  pose proof (serve_mean _ (fun v => Score.req_value_n v (c + 1))
                (c + 1) (fun v g => run_modified_req_value_n (c + 1) v g)
                0 vs) as Hmean.
  apply Forall2_last in Hsim. rewrite Hlast in Hsim.
  unfold Score.returns_last in Hmean.
  inversion Hsim as [o a' Hoa Ho Ha'|]; subst. rewrite <- Ho in Hmean.
  destruct o as [b|e]; [|done]. cbn in Hoa.
  rewrite <- Hoa. apply Hmean.
  - intros E. rewrite E in Hlen. done.
  - rewrite Hlen, of_nat_S_Q. lra.
Qed.

Lemma run_avg_warm_up_mean_witness :
  4 + (8 - 4) / (Qmin 2 (inject_Z (Z.of_nat 1)) + 1)
  == mean (take (S 1) [4; 8; 6]).
Proof.
  apply (run_avg_warm_up_mean 2 [4; 8; 6] (Develop.online_ewm 2 [4; 8; 6]) 1).
  - vm_compute. discriminate.
  - reflexivity.
  - vm_compute. discriminate.
  - reflexivity.
Defined.

(** X10: [run_avg] does not leave the range of its input: when all
    values lie in [lo .. hi], so do all entries of the result. *)
Theorem run_avg_within_range (c lo hi : Q) (ts out : list Q) :
  0 <= c ->
  Develop.run_avg ts c = Ok out ->
  Forall (fun v => lo <= v <= hi) ts ->
  Forall (fun a => lo <= a <= hi) out.
Proof.
  intros Hc Hrun Hts.
  assert (Hne : ts <> []) by (intros ->; discriminate Hrun).
  rewrite run_avg_online in Hrun by done. injection Hrun as <-.
  pose proof (serve_online_ewm _ (fun v => Score.req_value_n v (c + 1))
                (c + 1) (fun v g => run_modified_req_value_n (c + 1) v g)
                c Hc (Qeq_refl _) 0 ts) as Hsim.
  pose proof (serve_within _ (fun v => Score.req_value_n v (c + 1))
                (c + 1) (fun v g => run_modified_req_value_n (c + 1) v g)
                ltac:(lra) lo hi ts (Score.Globals 0 0)
                ltac:(cbn; lia) (or_introl eq_refl) Hts) as Hin.
  revert Hin Hsim. generalize (Develop.online_ewm c ts) as out.
  generalize
    (Score.serve Score.run_modified
       ((fun v => Score.req_value_n v (c + 1)) <$> ts) (Score.Globals 0 0)).2
    as souts.
  intros souts out Hin Hsim. revert Hin.
  induction Hsim as [|o a souts out Hoa _ IH]; intros Hin; [constructor|].
  apply Forall_cons in Hin as [(b & -> & Hb) Hin]. cbn in Hoa.
  constructor; [|by apply IH]. rewrite <- Hoa. exact Hb.
Qed.

Lemma run_avg_within_range_witness :
  Forall (fun a => 4 <= a <= 8) (Develop.online_ewm 1 [4; 8; 6]).
Proof.
  apply (run_avg_within_range 1 4 8 [4; 8; 6]).
  - vm_compute. discriminate.
  - reflexivity.
  - repeat constructor; vm_compute; discriminate.
Defined.

Section TemplateFacts.
Import Develop.

Variable com : Q.

Lemma template_loop (n m : nat) :
  (S m <= n)%nat ->
  foldl (Cells.template_pass com) (Ok (<[0%nat := -1]> (replicate n 0))) (seq 1 m)
  = Ok (replicate (S m) (-1) ++ replicate (n - S m) 0).
Proof.
  induction m as [|m IH]; intros Hm.
  - destruct n as [|n]; [lia|]. cbn. by rewrite Nat.sub_0_r.
  - rewrite seq_S, foldl_app, IH by lia. cbn [foldl Nat.add].
    unfold Cells.template_pass. cbn [mbind result_bind].
    rewrite length_app, !length_replicate.
    rewrite decide_True by lia.
    rewrite insert_app_r_alt by (rewrite length_replicate; lia).
    rewrite length_replicate, Nat.sub_diag.
    rewrite (replicate_S_end (S m)), <- app_assoc.
    replace (n - S m)%nat with (S (n - S (S m))) by lia.
    done.
Qed.

Lemma template_pass_out_of_range (l : list Q) (r : nat) :
  (length l <= r)%nat -> Cells.template_pass com (Ok l) r = Raise IndexError.
Proof.
  intros Hr. unfold Cells.template_pass. cbn [mbind result_bind].
  by rewrite decide_False by lia.
Qed.

Lemma template_loop_raise (e : exn) (l : list nat) :
  foldl (Cells.template_pass com) (Raise e) l = Raise e.
Proof. induction l as [|r l IH]; [done|]. cbn. exact IH. Qed.

Lemma run_avg_template_unfold (len_rm : nat) (ts : list Q) :
  ts <> [] ->
  run_avg_template len_rm com ts
  = foldl (Cells.template_pass com) (Ok (<[0%nat := -1]> (replicate (length ts) 0)))
      (seq 1 (len_rm - 1)).
Proof. destruct ts; [done|]. reflexivity. Qed.

End TemplateFacts.

(** X11: the cell of the notebook that defines [run_avg], as it stands,
    does not look at the values of its input: on a non-empty array it
    returns [-1] in the first [max(1, len(rm))] places and [0] after
    them, where [rm] is the global batch result; it raises [IndexError]
    when [rm] is longer than the input, or when the input is empty. *)
Theorem run_avg_template_output (len_rm : nat) (com : Q) (ts : list Q) :
  (ts = [] -> Develop.run_avg_template len_rm com ts = Raise IndexError)
  /\ ((1 <= length ts)%nat -> (len_rm <= length ts)%nat ->
      Develop.run_avg_template len_rm com ts
      = Ok (replicate (Nat.max 1 len_rm) (-1)
            ++ replicate (length ts - Nat.max 1 len_rm) 0))
  /\ ((1 <= length ts)%nat -> (length ts < len_rm)%nat ->
      Develop.run_avg_template len_rm com ts = Raise IndexError).
Proof.
  split; [by intros ->|]. split.
  - intros H1 Hle.
    rewrite run_avg_template_unfold by (destruct ts; [cbn in H1; lia|done]).
    rewrite template_loop by lia.
    by replace (S (len_rm - 1)) with (Nat.max 1 len_rm) by lia.
  - intros H1 Hlt.
    rewrite run_avg_template_unfold by (destruct ts; [cbn in H1; lia|done]).
    replace (len_rm - 1)%nat
      with ((length ts - 1) + S (len_rm - length ts - 1))%nat by lia.
    rewrite seq_app, foldl_app, template_loop by lia.
    cbn [seq foldl].
    rewrite template_pass_out_of_range; [apply template_loop_raise|].
    rewrite length_app, !length_replicate. lia.
Qed.

Lemma run_avg_template_output_witness :
  Develop.run_avg_template 2 1 [0; 10; 0]
  = Ok (replicate (Nat.max 1 2) (-1)
        ++ replicate (length [0; 10; 0] - Nat.max 1 2) 0).
Proof.
  refine (proj1 (proj2 (run_avg_template_output 2 1 [0; 10; 0])) _ _);
    simpl; lia.
Defined.

(** ** More on the window and the detectors *)

Section WindowMore.
Import Develop.

(** Whatever the bounds, the slice [a:b] is the end of the first [b]
    rows. *)
Lemma iloc_suffix {A} (df : list A) (a b : Z) :
  (0 <= a)%Z -> (0 <= b)%Z ->
  exists older, take (Z.to_nat b) df = older ++ iloc df a b.
Proof.
  intros Ha Hb. unfold iloc, slice_bound.
  destruct (Z.ltb_spec a 0), (Z.ltb_spec b 0); try lia.
  set (len := Z.of_nat (length df)).
  assert (Hb' : take (Z.to_nat b) df = take (Z.to_nat (Z.min len b)) df).
  { destruct (Z.le_gt_cases b len).
    - by rewrite Z.min_r by lia.
    - rewrite Z.min_l by lia. rewrite !take_ge; [done|unfold len; lia..]. }
  destruct (Z.le_gt_cases (Z.min len a) (Z.min len b)).
  - exists (take (Z.to_nat (Z.min len a)) df).
    rewrite Hb', take_take_drop. f_equal. lia.
  - exists (take (Z.to_nat b) df).
    replace (Z.to_nat (Z.min len b - Z.min len a)) with 0%nat by lia.
    by rewrite take_0, app_nil_r.
Qed.

Lemma window_in_prefix (df : list row) (W stop : Z) (r : row) :
  (0 <= stop)%Z -> r ∈ window df W stop ->
  exists j, df !! j = Some r /\ (Z.of_nat j < stop)%Z.
Proof.
  intros Hs Hr. unfold window in Hr.
  destruct (iloc_suffix df (Z.max 0 (stop - W)) stop) as [older Ht]; [lia..|].
  assert (Hin : r ∈ take (Z.to_nat stop) df).
  { rewrite Ht. apply elem_of_app. by right. }
  apply elem_of_take in Hin as (j & Hj & Hlt). exists j. split; [done|lia].
Qed.

(** Rows from [stop] on do not enter the window. *)
Lemma window_app (df future : list row) (W stop : Z) :
  (0 <= W)%Z -> (0 <= stop)%Z -> (stop <= Z.of_nat (length df))%Z ->
  window (df ++ future) W stop = window df W stop.
Proof.
  intros HW Hs Hlen. unfold window, iloc, slice_bound.
  destruct (Z.ltb_spec (Z.max 0 (stop - W)) 0), (Z.ltb_spec stop 0); try lia.
  rewrite length_app, Nat2Z.inj_add.
  rewrite !(Z.min_r _ stop), !(Z.min_r _ (Z.max 0 (stop - W))) by lia.
  rewrite drop_app_le by lia. rewrite take_app_le; [done|].
  rewrite length_drop. lia.
Qed.

Lemma test_case_index_Ok (df : list row) (ts i : Z) :
  test_case_index df ts = Ok i <->
  exists (n : nat) (r : row),
    i = Z.of_nat n /\ df !! n = Some r /\ timestamp r = ts
    /\ forall j r', df !! j = Some r' -> (j < n)%nat -> timestamp r' <> ts.
Proof.
  unfold test_case_index.
  destruct (list_find _ df) as [[n r]|] eqn:E.
  - apply list_find_Some in E as (Hn & Hr & Hmin). split.
    + intros [= <-]. by exists n, r.
    + intros (n' & r' & -> & Hn' & Hr' & Hmin'). f_equal.
      destruct (Nat.lt_trichotomy n n') as [Hlt|[->|Hlt]]; [|done|].
      * exfalso. exact (Hmin' n r Hn Hlt Hr).
      * exfalso. exact (Hmin n' r' Hn' Hlt Hr').
  - split; [done|]. intros (n & r & -> & Hn & Hr & _). exfalso.
    destruct (list_find_elem_of (fun r => timestamp r = ts) df r)
      as [? Hfind]; [by eapply list_elem_of_lookup_2|done|].
    congruence.
Qed.

Lemma verdict_raises (df_win anoms : list row) (e : exn) :
  verdict df_win anoms = Raise e <->
  e = IndexError /\ df_win = [] /\ anoms <> [].
Proof.
  unfold verdict, tail1. rewrite !fmap_last.
  destruct anoms as [|a anoms].
  - cbn. split; [done|]. intros (_ & _ & ?). done.
  - replace (0 <? length (a :: anoms))%nat with true by done.
    destruct (last (a :: anoms)) as [x|] eqn:Ea.
    2:{ by apply last_None in Ea. }
    destruct (last df_win) as [y|] eqn:Ew; cbn.
    + destruct (_ =? _)%Z; (split; [done|]); intros (_ & -> & _); done.
    + apply last_None in Ew. subst df_win. split.
      * by intros [= <-].
      * by intros (-> & _ & _).
Qed.

End WindowMore.

(** X12: [test_case_index] finds the first row that bears the timestamp:
    it returns [i] exactly when row [i] bears it and no earlier row
    does, and it raises [IndexError] exactly when no row bears it. *)
Theorem test_case_index_first_match (df : list Develop.row) (ts : Z) :
  (forall i, Develop.test_case_index df ts = Ok i <->
     exists (n : nat) (r : Develop.row),
       i = Z.of_nat n /\ df !! n = Some r /\ Develop.timestamp r = ts
       /\ forall j r', df !! j = Some r' -> (j < n)%nat ->
            Develop.timestamp r' <> ts)
  /\ (Develop.test_case_index df ts = Raise IndexError <->
      ts ∉ (Develop.timestamp <$> df))
  /\ forall e, Develop.test_case_index df ts = Raise e -> e = IndexError.
Proof.
  split; [intros i; apply test_case_index_Ok|].
  unfold Develop.test_case_index.
  destruct (list_find _ df) as [[n r]|] eqn:E.
  - apply list_find_Some in E as (Hn & Hr & _). split; [|done].
    split; [done|]. intros Hnot. exfalso. apply Hnot.
    apply list_elem_of_fmap. exists r. split; [done|].
    by eapply list_elem_of_lookup_2.
  - split; [|by intros e [= <-]]. split; [|done]. intros _ Hin.
    apply list_elem_of_fmap in Hin as (r & Hr & Hin).
    destruct (list_find_elem_of (fun r => Develop.timestamp r = ts) df r)
      as [? Hfind]; [done|done|]. congruence.
Qed.

(** X13: when the timestamps of the frame are distinct, the timestamp of
    the candidate never occurs in the window that the harness hands to
    the oracle for it; for a window size of at least 1 and a candidate
    that is not the first row, the window ends with the row before the
    candidate. *)
Theorem candidate_outside_window (df : list Develop.row) (W ts i : Z) :
  NoDup (Develop.timestamp <$> df) ->
  Develop.test_case_index df ts = Ok i ->
  (ts ∉ (Develop.timestamp <$> Develop.window df W i))
  /\ ((1 <= W)%Z -> (1 <= i)%Z ->
      last (Develop.window df W i) = df !! Z.to_nat (i - 1)).
Proof.
  intros Hnd Hi.
  apply test_case_index_Ok in Hi as (n & r & -> & Hn & Hr & _).
  split.
  - intros Hin. apply list_elem_of_fmap in Hin as (r' & Hr' & Hin).
    apply window_in_prefix in Hin as (j & Hj & Hlt); [|lia].
    assert (j = n); [|lia].
    apply (NoDup_lookup _ j n ts Hnd); rewrite list_lookup_fmap.
    + rewrite Hj. cbn. congruence.
    + rewrite Hn. cbn. congruence.
  - intros HW H1. apply window_last; [done|done|].
    apply lookup_lt_Some in Hn. lia.
Qed.

Lemma candidate_outside_window_witness :
  (40%Z ∉ (Develop.timestamp <$> Develop.window Develop.frame4 2 3))
  /\ ((1 <= 2)%Z -> (1 <= 3)%Z ->
      last (Develop.window Develop.frame4 2 3)
      = Develop.frame4 !! Z.to_nat (3 - 1)).
Proof.
  apply (candidate_outside_window Develop.frame4 2 40 3).
  - change (NoDup [10; 20; 30; 40]%Z).
    apply (bool_decide_unpack _). vm_compute. exact I.
  - reflexivity.
Defined.

(** X14: the windowed detectors are causal: for an index inside the
    frame, rows from that index on have no part in the result, so both
    [eval] and [detect_ts_online] return on a frame what they return on
    the frame with any rows appended. *)
Theorem detection_ignores_later_rows (detect_ts : Develop.oracle) (now : Q)
    (df future : list Develop.row) (W stop : Z) :
  (0 <= W)%Z -> (0 <= stop)%Z -> (stop <= Z.of_nat (length df))%Z ->
  Develop.eval detect_ts now (df ++ future) W stop
  = Develop.eval detect_ts now df W stop
  /\ Develop.detect_ts_online detect_ts now (df ++ future) W stop
     = Develop.detect_ts_online detect_ts now df W stop.
Proof.
  intros HW Hs Hlen. unfold Develop.eval, Develop.detect_ts_online.
  by rewrite window_app.
Qed.

Lemma detection_ignores_later_rows_witness :
  Develop.eval (Develop.flag_timestamp 30) 7
    (Develop.frame4 ++ [Develop.Row 50 5]) 2 3
  = Develop.eval (Develop.flag_timestamp 30) 7 Develop.frame4 2 3
  /\ Develop.detect_ts_online (Develop.flag_timestamp 30) 7
       (Develop.frame4 ++ [Develop.Row 50 5]) 2 3
     = Develop.detect_ts_online (Develop.flag_timestamp 30) 7
         Develop.frame4 2 3.
Proof.
  apply (detection_ignores_later_rows (Develop.flag_timestamp 30) 7
           Develop.frame4 [Develop.Row 50 5] 2 3); simpl; lia.
Defined.



(** X16: [eval] raises only in two ways: the oracle raised something
    other than [ValueError], or the oracle returned flagged rows for an
    empty window, and reading the last timestamp of the window raised
    [IndexError]. *)
Theorem eval_raises_only (detect_ts : Develop.oracle) (now : Q)
    (df : list Develop.row) (W stop : Z) (e : exn) :
  Develop.eval detect_ts now df W stop = Raise e <->
  e <> ValueError
  /\ ((detect_ts (Develop.window df W stop)).2 = Raise e
      \/ (e = IndexError /\ Develop.window df W stop = []
          /\ exists anoms,
               (detect_ts (Develop.window df W stop)).2 = Ok anoms
               /\ anoms <> [])).
Proof.
  unfold Develop.eval.
  destruct (detect_ts (Develop.window df W stop)) as [dt [anoms|e']]; cbn.
  - destruct (Develop.verdict _ anoms) as [b|e'] eqn:Ev.
    + split; [done|]. intros (_ & [?|(-> & Hw & anoms' & [= <-] & Hne)]);
        [done|]. exfalso.
      assert (Develop.verdict (Develop.window df W stop) anoms
              = Raise IndexError) by (by apply verdict_raises).
      congruence.
    + apply verdict_raises in Ev as (-> & Hw & Hne). split.
      * intros [= <-]. split; [done|]. right. eauto.
      * by intros (_ & [?|(-> & _)]).
  - split.
    + intros He. assert (e' = e) as -> by (by destruct e'; inversion He).
      split; [by destruct e|by left].
    + intros (Hne & [[= <-]|(_ & _ & ? & ? & _)]); [|done].
      by destruct e'.
Qed.

(** ** More on the evaluation harness *)

Section HarnessMore.
Import Develop.

Variable detect_ts : oracle.
Variable shuffle : nat -> list Z -> list Z.
Variable score_of : list bool -> list bool -> Q.
Variable timestamps : list Z.
Variable window_size : Z.
Variable com : Q.

Lemma resample_S (fuel rng : nat) (counter : Z) (a : list Z) :
  resample shuffle timestamps (S fuel) rng counter a
  = match a !! 0%nat, timestamps !! 0%nat with
    | Some a0, Some t0 =>
        if (a0 <? t0)%Z then
          if (100 <? counter)%Z then Some (rng, Ok GiveUp)
          else resample shuffle timestamps fuel (S rng) (counter + 1)
                 (shuffle rng a)
        else Some (rng, Ok (Picked a0))
    | _, _ => Some (rng, Raise IndexError)
    end.
Proof. reflexivity. Qed.

(** Fuel beyond what the loop needs changes nothing. *)
Lemma resample_stable (n : nat) : forall fuel rng counter a,
  (Z.to_nat (101 - counter) <= n)%nat -> (S n <= fuel)%nat ->
  resample shuffle timestamps fuel rng counter a
  = resample shuffle timestamps (S n) rng counter a.
Proof.
  induction n as [|n IH]; intros fuel rng counter a Hn Hfuel;
    (destruct fuel as [|fuel]; [lia|]).
  - rewrite (resample_S fuel), (resample_S 0).
    destruct (a !! 0%nat), (timestamps !! 0%nat); try done.
    destruct (_ <? _)%Z; [|done].
    destruct (Z.ltb_spec 100 counter); [done|lia].
  - rewrite (resample_S fuel), (resample_S (S n)).
    destruct (a !! 0%nat), (timestamps !! 0%nat); try done.
    destruct (_ <? _)%Z; [|done].
    destruct (Z.ltb_spec 100 counter); [done|].
    apply IH; lia.
Qed.

Lemma run_epoch_stable (fuel rng : nat) (now : Q) (e : epoch) :
  (102 <= fuel)%nat ->
  run_epoch detect_ts shuffle timestamps window_size com fuel rng now e
  = run_epoch detect_ts shuffle timestamps window_size com 102 rng now e
  /\ is_Some
       (run_epoch detect_ts shuffle timestamps window_size com fuel rng now e).
Proof.
  intros Hf. unfold run_epoch.
  destruct (run_avg _ com) as [smooth|x]; [|by split].
  destruct (biased e); [|by split].
  unfold pick_anomaly.
  rewrite (resample_stable 101 fuel) by lia.
  split; [done|].
  destruct (resample_total shuffle timestamps 101 102 (S rng) 0
              (shuffle rng (anoms_s e))) as [[rng' r] ->]; [lia..|].
  destruct r as [[ts|]|x]; done.
Qed.

Lemma epochs_loop_stable (fuel : nat) (now : Q) (es : list epoch) :
  (102 <= fuel)%nat ->
  forall rng y_true y_pred run_times assigned,
    epochs_loop detect_ts shuffle score_of timestamps window_size com
      fuel rng now es y_true y_pred run_times assigned
    = epochs_loop detect_ts shuffle score_of timestamps window_size com
        102 rng now es y_true y_pred run_times assigned
    /\ is_Some
         (epochs_loop detect_ts shuffle score_of timestamps window_size com
            fuel rng now es y_true y_pred run_times assigned).
Proof.
  intros Hf. induction es as [|e es IH]; intros rng yt yp rts asg.
  - cbn. by destruct asg.
  - cbn [epochs_loop].
    destruct (run_epoch_stable fuel rng now e Hf) as [-> [[rng' r] ->]].
    destruct r as [[t p rt|]|x]; [apply IH|done..].
Qed.

Hypothesis shuffle_perm : forall k l, shuffle k l ≡ₚ l.

(** A timestamp picked by the retry loop is one of the anomalies and
    lies in the usable range. *)
Lemma resample_picked (fuel : nat) : forall rng counter a rng' ts,
  resample shuffle timestamps fuel rng counter a = Some (rng', Ok (Picked ts)) ->
  ts ∈ a /\ exists t0, timestamps !! 0%nat = Some t0 /\ (t0 <= ts)%Z.
Proof.
  induction fuel as [|fuel IH]; intros rng counter a rng' ts H; [done|].
  cbn in H.
  destruct (a !! 0%nat) as [a0|] eqn:Ea; [|done].
  destruct (timestamps !! 0%nat) as [t0|] eqn:Et; [|done].
  destruct (Z.ltb_spec a0 t0).
  - destruct (100 <? counter)%Z; [done|].
    apply IH in H as [Hin H]. split; [|done].
    by rewrite (shuffle_perm rng a) in Hin.
  - injection H as <- <-. split; [by eapply list_elem_of_lookup_2|].
    exists t0. split; [done|lia].
Qed.


End HarnessMore.

(** X17: the harness always finishes: with fuel for 102 tests of the
    retry loop's condition, [sample_run] returns a result for any
    oracle, any shuffles and any draws, and more fuel does not change
    it. *)
Theorem sample_run_terminates (detect_ts : Develop.oracle)
    (shuffle : nat -> list Z -> list Z)
    (score_of : list bool -> list bool -> Q) (timestamps : list Z)
    (window_size : Z) (com : Q) (fuel : nat) (now : Q)
    (es : list Develop.epoch) :
  (102 <= fuel)%nat ->
  is_Some (Develop.sample_run detect_ts shuffle score_of timestamps
             window_size com fuel now es)
  /\ Develop.sample_run detect_ts shuffle score_of timestamps
       window_size com fuel now es
     = Develop.sample_run detect_ts shuffle score_of timestamps
         window_size com 102 now es.
Proof.
  intros Hf. unfold Develop.sample_run.
  destruct timestamps as [|t ts]; [by split|].
  destruct (epochs_loop_stable detect_ts shuffle score_of (t :: ts)
              window_size com fuel now es Hf 0%nat [] [] [] None)
    as [Heq Hsome].
  by split.
Qed.

Lemma sample_run_terminates_witness :
  is_Some (Develop.sample_run (Develop.flag_timestamp 40) Develop.reversing
             (fun _ _ => 1) [30; 40]%Z 2 0 200 7
             [Develop.Epoch Develop.raw4 [10; 20]%Z 30 true])
  /\ Develop.sample_run (Develop.flag_timestamp 40) Develop.reversing
       (fun _ _ => 1) [30; 40]%Z 2 0 200 7
       [Develop.Epoch Develop.raw4 [10; 20]%Z 30 true]
     = Develop.sample_run (Develop.flag_timestamp 40) Develop.reversing
         (fun _ _ => 1) [30; 40]%Z 2 0 102 7
         [Develop.Epoch Develop.raw4 [10; 20]%Z 30 true].
Proof.
  apply (sample_run_terminates (Develop.flag_timestamp 40) Develop.reversing
           (fun _ _ => 1) [30; 40]%Z 2 0 200 7
           [Develop.Epoch Develop.raw4 [10; 20]%Z 30 true]).
  lia.
Defined.

(** X18: in a biased trial that is carried through, the candidate is a
    batch anomaly of the series inside the usable range, so its
    [y_true] is [True]. *)
Theorem biased_trial_is_positive (detect_ts : Develop.oracle)
    (shuffle : nat -> list Z -> list Z) (timestamps : list Z)
    (window_size : Z) (com : Q) (fuel rng rng' : nat) (now : Q)
    (e : Develop.epoch) (y_true y_pred : bool) (run_time : Q) :
  (forall k l, shuffle k l ≡ₚ l) ->
  Develop.biased e = true ->
  Develop.run_epoch detect_ts shuffle timestamps window_size com
    fuel rng now e
  = Some (rng', Ok (Develop.Sample y_true y_pred run_time)) ->
  y_true = true
  /\ exists ts t0,
       Develop.pick_anomaly shuffle timestamps fuel rng e
       = Some (rng', Ok (Develop.Picked ts))
       /\ ts ∈ Develop.anoms_s e
       /\ timestamps !! 0%nat = Some t0 /\ (t0 <= ts)%Z.
Proof.
  intros Hperm Hb Hrun. unfold Develop.run_epoch in Hrun.
  destruct (Develop.run_avg _ com) as [smooth|x]; [|done].
  rewrite Hb in Hrun.
  destruct (Develop.pick_anomaly shuffle timestamps fuel rng e)
    as [[rng0 [[ts|]|x]]|] eqn:Hpick; try done.
  injection Hrun as <- Hrun.
  pose proof Hpick as Hpick'. unfold Develop.pick_anomaly in Hpick'.
  apply (resample_picked shuffle timestamps Hperm) in Hpick'
    as [Hin (t0 & Ht0 & Hle)].
  rewrite (Hperm rng (Develop.anoms_s e)) in Hin.
  split; [|by exists ts, t0].
  unfold Develop.run_test_case in Hrun.
  destruct (Develop.test_case_index _ ts) as [i|x]; [|done]. cbn in Hrun.
  destruct (Develop.detect_ts_online _ _ _ _ _) as [[p rt]|x]; [|done].
  cbn in Hrun. injection Hrun as <- _ _. by apply bool_decide_eq_true.
Qed.

Lemma biased_trial_is_positive_witness :
  true = true
  /\ exists ts t0,
       Develop.pick_anomaly Develop.reversing [30; 40]%Z 200 0
         (Develop.Epoch Develop.raw4 [10; 30]%Z 40 true)
       = Some (1%nat, Ok (Develop.Picked ts))
       /\ ts ∈ Develop.anoms_s (Develop.Epoch Develop.raw4 [10; 30]%Z 40 true)
       /\ [30; 40]%Z !! 0%nat = Some t0 /\ (t0 <= ts)%Z.
Proof.
  apply (biased_trial_is_positive (Develop.flag_timestamp 30)
           Develop.reversing [30; 40]%Z 2 0 200 0 1 7
           (Develop.Epoch Develop.raw4 [10; 30]%Z 40 true)
           true false (7 + 0 - 7)).
  - intros k l. apply reverse_Permutation.
  - reflexivity.
  - vm_compute. reflexivity.
Defined.



(** ** Other cells *)

Section CellFacts.
Import Cells.

Lemma where_from_none (col : list Z) (t : Z) : forall i,
  t ∉ col -> where_from i col t = [].
Proof.
  induction col as [|x col IH]; intros i Hnot; [done|]. cbn.
  apply not_elem_of_cons in Hnot as [Hne Hnot].
  rewrite decide_False by done. by apply IH.
Qed.

Lemma where_from_unique (col : list Z) (t : Z) : forall i n,
  NoDup col -> col !! n = Some t ->
  where_from i col t = [(i + Z.of_nat n)%Z].
Proof.
  induction col as [|x col IH]; intros i n Hnd Hn; [done|].
  apply NoDup_cons in Hnd as [Hx Hnd]. cbn.
  destruct n as [|n]; cbn in Hn.
  - injection Hn as ->. rewrite decide_True by done.
    rewrite where_from_none by done. f_equal. lia.
  - rewrite decide_False.
    + rewrite (IH (i + 1)%Z n) by done. f_equal. lia.
    + intros ->. apply Hx. by eapply list_elem_of_lookup_2.
Qed.

End CellFacts.

(** X20: the cell that records [last_anomaly]: with distinct timestamps
    in the frame it yields the position of the row that bears the
    timestamp of the last flagged row; it raises [IndexError] when
    nothing is flagged, and the conversion [int(...)] fails with
    [TypeError] when that timestamp is not in the frame. *)
Theorem last_anomaly_position (df_smooth anoms : list Develop.row) :
  (anoms = [] -> Cells.last_anomaly df_smooth anoms = Raise IndexError)
  /\ (forall t, last (Develop.timestamp <$> anoms) = Some t ->
        t ∉ (Develop.timestamp <$> df_smooth) ->
        Cells.last_anomaly df_smooth anoms = Ok Cells.TypeError)
  /\ (forall t n, NoDup (Develop.timestamp <$> df_smooth) ->
        last (Develop.timestamp <$> anoms) = Some t ->
        (Develop.timestamp <$> df_smooth) !! n = Some t ->
        Cells.last_anomaly df_smooth anoms
        = Ok (Cells.Converted (Z.of_nat n))).
Proof.
  unfold Cells.last_anomaly, Develop.tail1. split; [by intros ->|]. split.
  - intros t -> Hnot. cbn. by rewrite where_from_none.
  - intros t n Hnd -> Hn. cbn. by rewrite (where_from_unique _ _ 0 n).
Qed.

Lemma last_anomaly_position_witness :
  Cells.last_anomaly Develop.frame4 [Develop.Row 20 2; Develop.Row 30 3]
  = Ok (Cells.Converted (Z.of_nat 2)).
Proof.
  refine (proj2 (proj2 (last_anomaly_position Develop.frame4
                          [Develop.Row 20 2; Develop.Row 30 3]))
            30%Z 2%nat _ _ _).
  - change (NoDup [10; 20; 30; 40]%Z).
    apply (bool_decide_unpack _). vm_compute. exact I.
  - reflexivity.
  - reflexivity.
Defined.

(** X21: the panel of figures of the data-exploration notebook gives
    every sensor a place of its own: the index [s] is recovered from its
    row and column as [2 * r + c], the column is 0 or 1, and the four
    sensors [s < 4] fall in the rows 0 and 1. *)
Theorem panel_places_are_distinct :
  (forall s, s = (2 * (Cells.panel s).1 + (Cells.panel s).2)%nat
             /\ ((Cells.panel s).2 < 2)%nat
             /\ ((s < 4)%nat -> ((Cells.panel s).1 < 2)%nat))
  /\ forall s s', Cells.panel s = Cells.panel s' -> s = s'.
Proof.
  assert (H : forall s, s = (2 * (Cells.panel s).1 + (Cells.panel s).2)%nat).
  { intros s. unfold Cells.panel. cbn [fst snd]. apply Nat.div_mod_eq. }
  split.
  - intros s. split; [apply H|]. unfold Cells.panel. cbn [fst snd]. split.
    + apply Nat.mod_upper_bound. lia.
    + intros Hs. apply Nat.Div0.div_lt_upper_bound. lia.
  - intros s s' E. rewrite (H s), (H s'), E. reflexivity.
Qed.

(** ** Whole runs of the harness *)

Section RunFacts.
Import Develop.

Variable detect_ts : oracle.
Variable shuffle : nat -> list Z -> list Z.
Variable score_of : list bool -> list bool -> Q.
Variable timestamps : list Z.
Variable window_size : Z.
Variable com : Q.
Variable fuel : nat.
Variable now : Q.

(** After trials that are carried through, the loop goes on with their
    samples appended to the accumulators. *)
Lemma epochs_loop_carried (es : list epoch) :
  forall rng rng' (samples : list (bool * bool * Q)),
  Cells.carried_through detect_ts shuffle timestamps window_size com
    fuel rng now es = Some (rng', samples) ->
  forall rest y_true y_pred run_times assigned,
    epochs_loop detect_ts shuffle score_of timestamps window_size com
      fuel rng now (es ++ rest) y_true y_pred run_times assigned
    = epochs_loop detect_ts shuffle score_of timestamps window_size com
        fuel rng' now rest
        (y_true ++ samples.*1.*1) (y_pred ++ samples.*1.*2)
        (run_times ++ samples.*2)
        (match samples with
         | [] => assigned
         | _ => Some (score_of (y_true ++ samples.*1.*1)
                        (y_pred ++ samples.*1.*2),
                      mean (run_times ++ samples.*2))
         end).
Proof.
  induction es as [|e es IH]; intros rng rng' samples Hc rest yt yp rts asg.
  - injection Hc as <- <-. cbn. by rewrite !app_nil_r.
  - cbn [Cells.carried_through] in Hc. cbn [app epochs_loop].
    destruct (run_epoch _ _ _ _ _ _ rng _ e) as [[rng1 [[t p rt|]|x]]|];
      try done.
    destruct (Cells.carried_through _ _ _ _ _ _ rng1 _ es)
      as [[rng2 samples']|] eqn:Hc'; [|done].
    injection Hc as <- <-.
    rewrite (IH rng1 rng2 samples' Hc' rest (yt ++ [t]) (yp ++ [p])
               (rts ++ [rt])
               (Some (score_of (yt ++ [t]) (yp ++ [p]), mean (rts ++ [rt])))).
    rewrite !fmap_cons. cbn [fst snd].
    rewrite <- !app_assoc. cbn [app].
    by destruct samples'.
Qed.

Lemma zip_with_Row_timestamp (dts : list Z) (vs : list Q) (ts : Z) :
  ts ∈ timestamp <$> zip_with Row dts vs -> ts ∈ dts.
Proof.
  revert vs. induction dts as [|d dts IH]; intros [|v vs] Hin;
    cbn in Hin; try by apply elem_of_nil in Hin.
  apply elem_of_cons in Hin as [->|Hin]; [by left|]. right. by eapply IH.
Qed.

Lemma run_epoch_index_error (rng : nat) (e : epoch) :
  (1 <= fuel)%nat ->
  (forall k l, shuffle k l ≡ₚ l) ->
  (biased e = true /\ anoms_s e = [])
  \/ (biased e = false /\ random_timestamp e ∉ (df_s e).*1) ->
  exists rng',
    run_epoch detect_ts shuffle timestamps window_size com fuel rng now e
    = Some (rng', Raise IndexError).
Proof.
  intros Hf Hperm Hcase. unfold run_epoch.
  destruct (run_avg _ com) as [smooth|x] eqn:Hrun.
  2:{ exists rng. unfold run_avg in Hrun.
      destruct (_ !! 0%nat) in Hrun; [done|]. by injection Hrun as <-. }
  destruct Hcase as [[-> Hempty]|[-> Hnot]].
  - rewrite (pick_anomaly_empty shuffle timestamps Hperm) by done. eauto.
  - exists rng. unfold run_test_case.
    destruct (test_case_index _ _) as [i|x] eqn:Hi.
    + exfalso. apply test_case_index_Ok in Hi as (n & r & _ & Hn & Hr & _).
      apply Hnot, (zip_with_Row_timestamp _ smooth).
      apply list_elem_of_fmap. exists r. split; [done|].
      by eapply list_elem_of_lookup_2.
    + cbn. f_equal. f_equal.
      unfold test_case_index in Hi.
      destruct (list_find _ _) as [[? ?]|]; congruence.
Qed.

End RunFacts.

(** X22: when every trial of a run is carried through, [sample_run]
    returns the metric of the labels [y_true] and [y_pred] of all
    trials, in the order of the trials, together with the arithmetic
    mean of their run times. *)
Theorem sample_run_aggregates (detect_ts : Develop.oracle)
    (shuffle : nat -> list Z -> list Z)
    (score_of : list bool -> list bool -> Q) (timestamps : list Z)
    (window_size : Z) (com : Q) (fuel : nat) (now : Q)
    (es : list Develop.epoch) (rng' : nat)
    (samples : list (bool * bool * Q)) :
  timestamps <> [] -> es <> [] ->
  Cells.carried_through detect_ts shuffle timestamps window_size com
    fuel 0 now es = Some (rng', samples) ->
  Develop.sample_run detect_ts shuffle score_of timestamps window_size com
    fuel now es
  = Some (Ok (score_of samples.*1.*1 samples.*1.*2, mean samples.*2)).
Proof.
  intros Ht Hes Hall. unfold Develop.sample_run.
  destruct timestamps as [|t ts]; [done|].
  pose proof (epochs_loop_carried detect_ts shuffle score_of (t :: ts)
                window_size com fuel now es 0%nat rng' samples Hall
                [] [] [] [] None) as Hloop.
  rewrite app_nil_r in Hloop. rewrite Hloop. cbn.
  destruct samples; [|done].
  destruct es as [|e es]; [done|]. cbn in Hall.
  destruct (Develop.run_epoch _ _ _ _ _ _ _ _ e)
    as [[rng1 [[t' p rt|]|x]]|]; try done.
  by destruct (Cells.carried_through _ _ _ _ _ _ _ _ es) as [[? ?]|].
Qed.

Lemma sample_run_aggregates_witness :
  Develop.sample_run (Develop.flag_timestamp 30) Develop.reversing
    (fun _ _ => 1) [30; 40]%Z 2 0 200 7
    [Develop.Epoch Develop.raw4 [40%Z] 40 false;
     Develop.Epoch Develop.raw4 [10; 30]%Z 40 true]
  = Some (Ok (1, mean [(true, true, 7 + 0 - 7); (true, false, 7 + 0 - 7)].*2)).
Proof.
  refine (sample_run_aggregates (Develop.flag_timestamp 30) Develop.reversing
            (fun _ _ => 1) [30; 40]%Z 2 0 200 7
            [Develop.Epoch Develop.raw4 [40%Z] 40 false;
             Develop.Epoch Develop.raw4 [10; 30]%Z 40 true]
            1%nat
            [(true, true, 7 + 0 - 7); (true, false, 7 + 0 - 7)] _ _ _).
  - discriminate.
  - discriminate.
  - vm_compute. reflexivity.
Defined.

(** X23: a trial ends the run with [IndexError] when it is biased and
    its series has no batch anomaly at all, or when it is not biased and
    the timestamp drawn for it is not among those of its series; this
    holds after any number of trials carried through. *)
Theorem trial_index_error (detect_ts : Develop.oracle)
    (shuffle : nat -> list Z -> list Z)
    (score_of : list bool -> list bool -> Q) (timestamps : list Z)
    (window_size : Z) (com : Q) (fuel : nat) (now : Q)
    (es1 : list Develop.epoch) (rng' : nat)
    (samples : list (bool * bool * Q))
    (e : Develop.epoch) (es2 : list Develop.epoch) :
  timestamps <> [] -> (1 <= fuel)%nat ->
  (forall k l, shuffle k l ≡ₚ l) ->
  Cells.carried_through detect_ts shuffle timestamps window_size com
    fuel 0 now es1 = Some (rng', samples) ->
  (Develop.biased e = true /\ Develop.anoms_s e = [])
  \/ (Develop.biased e = false
      /\ Develop.random_timestamp e ∉ (Develop.df_s e).*1) ->
  Develop.sample_run detect_ts shuffle score_of timestamps window_size com
    fuel now (es1 ++ e :: es2)
  = Some (Raise IndexError).
Proof.
  intros Ht Hf Hperm Hall Hcase. unfold Develop.sample_run.
  destruct timestamps as [|t ts]; [done|].
  rewrite (epochs_loop_carried detect_ts shuffle score_of (t :: ts)
             window_size com fuel now es1 0%nat rng' samples Hall).
  cbn [Develop.epochs_loop].
  destruct (run_epoch_index_error detect_ts shuffle (t :: ts) window_size com
              fuel now rng' e Hf Hperm Hcase) as [rng'' ->].
  done.
Qed.

Lemma trial_index_error_witness :
  Develop.sample_run (Develop.flag_timestamp 30) Develop.reversing
    (fun _ _ => 1) [30; 40]%Z 2 0 200 7
    ([Develop.Epoch Develop.raw4 [10; 30]%Z 40 true]
       ++ Develop.Epoch Develop.raw4 [40%Z] 50 false :: [])
  = Some (Raise IndexError).
Proof.
  apply (trial_index_error (Develop.flag_timestamp 30) Develop.reversing
           (fun _ _ => 1) [30; 40]%Z 2 0 200 7
           [Develop.Epoch Develop.raw4 [10; 30]%Z 40 true]
           1%nat [(true, false, 7 + 0 - 7)]).
  - discriminate.
  - lia.
  - intros k l. apply reverse_Permutation.
  - vm_compute. reflexivity.
  - right. split; [reflexivity|].
    change (50%Z ∉ [10; 20; 30; 40]%Z).
    apply (bool_decide_unpack _). vm_compute. exact I.
Defined.
